(** * discogs_alert: the API client and the scraping client

    A shallow embedding of [src/discogs_alert/client.py] and the properties
    of its typed accessors, of the token transport and of the rate-limit
    tracker.

    Python objects are values of an inductive type, a [dict] is a [gmap]
    keyed by strings, a method is a function in a state-and-exception monad
    over the object it belongs to and the effects it can have (requests sent,
    log records written, pages visited). What the module imports from other
    packages ([requests], [json], the web driver, the builtin [int]) is
    gathered in the class [Env]; every theorem holds for every [Env]. *)

From Stdlib Require Import ZArith Lia.
From Stdlib.Strings Require Import Ascii String Byte.
From stdpp Require Import base option gmap list strings pretty.

#[local] Set Warnings "-register-all".
#[local] Open Scope Z_scope.

(** ** The Python fragment used by the client *)

(** The exceptions that the modelled code and its collaborators raise. *)
Inductive exn : Type :=
  | TypeError
  | KeyError
  | ValueError
  | AttributeError
  | NotImplementedError
  | JSONDecodeError
  | UnicodeDecodeError
  | RequestException
  | WebDriverException.

(** The outcome of evaluating an expression: a value or a raised exception. *)
Inductive result (A : Type) : Type :=
  | Ok (a : A)
  | Raise (e : exn).
Arguments Ok {A} a.
Arguments Raise {A} e.

#[global] Instance result_ret : MRet result := fun A a => Ok a.
#[global] Instance result_bind : MBind result := fun A B k r =>
  match r with
  | Ok a => k a
  | Raise e => Raise e
  end.

Definition is_ok {A} (r : result A) : bool :=
  match r with
  | Ok _ => true
  | Raise _ => false
  end.

(** [bytes] objects. *)
Definition bytes : Type := list byte.

Definition encode (s : string) : bytes := list_byte_of_string s.
Definition decode (b : bytes) : string := string_of_list_byte b.

(** Python values: what [json.loads] can return ([None], [bool], [int],
    [float], [str], [list], [dict]), [bytes] for a raw response body, and
    instances of the entity classes. A [float] is carried as its binary64 bit
    pattern; the client never looks inside one. The keys of a [dict] are
    strings, as they are in every decoded JSON object and in every keyword
    mapping. *)
Inductive value : Type :=
  | VNone
  | VBool (b : bool)
  | VInt (n : Z)
  | VFloat (bits : Z)
  | VStr (s : string)
  | VBytes (b : bytes)
  | VList (l : list value)
  | VDict (d : gmap string value)
  | VObj (cls : string) (fields : gmap string value).

(** [False], the sentinel of the read path. *)
Definition VFalse : value := VBool false.

(** [x[key]] for a string key. Only a [dict] can be subscripted by a string:
    a [list], a [str] or [bytes] want an integer, the other values are not
    subscriptable at all. *)
Definition getitem (x : value) (key : string) : result value :=
  match x with
  | VDict d =>
      match d !! key with
      | Some v => Ok v
      | None => Raise KeyError
      end
  | _ => Raise TypeError
  end.

(** [x[key] = v] for a string key. *)
Definition setitem (x : value) (key : string) (v : value) : result value :=
  match x with
  | VDict d => Ok (VDict (<[key := v]> d))
  | _ => Raise TypeError
  end.

Fixpoint chars (s : string) : list string :=
  match s with
  | EmptyString => []
  | String c s' => String c EmptyString :: chars s'
  end.

(** The elements that [for item in x] runs over. A [dict] yields its keys
    (here in the order of [map_to_list], in Python in insertion order), a
    [str] its characters, [bytes] its integers. *)
Definition iter (x : value) : result (list value) :=
  match x with
  | VList l => Ok l
  | VDict d => Ok (VStr <$> (map_to_list d).*1)
  | VStr s => Ok (VStr <$> chars s)
  | VBytes b => Ok ((fun c => VInt (Z.of_N (Byte.to_N c))) <$> b)
  | _ => Raise TypeError
  end.

(** [**x] in a call: the argument after [**] must be a mapping. *)
Definition kwargs (x : value) : result (gmap string value) :=
  match x with
  | VDict d => Ok d
  | _ => Raise TypeError
  end.

(** [isinstance(x, dict)]. *)
Definition isinstance_dict (x : value) : bool :=
  match x with
  | VDict _ => true
  | _ => false
  end.

(** [o.name] on an entity. *)
Definition getattr (o : value) (name : string) : result value :=
  match o with
  | VObj _ fields =>
      match fields !! name with
      | Some v => Ok v
      | None => Raise AttributeError
      end
  | _ => Raise AttributeError
  end.

(** [[f(x) for x in l]]: the calls are made from left to right and the
    first exception ends the comprehension. *)
Fixpoint comprehension {A B} (f : A -> result B) (l : list A) : result (list B) :=
  match l with
  | [] => Ok []
  | x :: l' =>
      y ← f x;
      ys ← comprehension f l';
      mret (y :: ys)
  end.

(** [str.lower] on the ASCII range, which holds the header names the client
    looks up. *)
Definition lower_ascii (c : ascii) : ascii :=
  let n := nat_of_ascii c in
  if ((65 <=? n) && (n <=? 90))%nat then ascii_of_nat (n + 32) else c.

Fixpoint lower (s : string) : string :=
  match s with
  | EmptyString => EmptyString
  | String c s' => String (lower_ascii c) (lower s')
  end.

(** ** Entities *)

(** Modelled from the spec: the entity classes [Release], [Listing],
    [UserList] and [ReleaseStats] of [discogs_alert.entities], which
    [client.py] imports and which are not part of the sources at hand. The
    spec treats them as a schema that the client populates from a mapping.
    A class is therefore given by its name and its fields, each with an
    optional default; calling the class with the keywords [kw] raises
    [TypeError] on a keyword that is not
    a field and on a field without default that no keyword gives, and
    otherwise returns the instance holding the keywords and the defaults. *)
Record dataclass : Type := {
  dc_name : string;
  dc_fields : list (string * option value)
}.

Definition bind_field (kw : gmap string value) (fd : string * option value)
  : result (string * value) :=
  match kw !! fd.1 with
  | Some v => Ok (fd.1, v)
  | None =>
      match fd.2 with
      | Some v => Ok (fd.1, v)
      | None => Raise TypeError
      end
  end.

Definition new (C : dataclass) (kw : gmap string value) : result value :=
  if forallb (fun k => bool_decide (k ∈ (dc_fields C).*1)) (map_to_list kw).*1
  then
    fs ← comprehension (bind_field kw) (dc_fields C);
    mret (VObj (dc_name C) (list_to_map fs))
  else Raise TypeError.

(** A mapping fits a class when each of its keys is a field and it gives
    every field that has no default. *)
Definition conforms (C : dataclass) (kw : gmap string value) : Prop :=
  (∀ k, is_Some (kw !! k) → k ∈ (dc_fields C).*1) ∧
  (∀ f, (f, None) ∈ dc_fields C → is_Some (kw !! f)).

(** [o] is an instance of [C] that holds every entry of [kw]. *)
Definition populated (C : dataclass) (kw : gmap string value) (o : value) : Prop :=
  ∃ fields, o = VObj (dc_name C) fields ∧
            ∀ k v, kw !! k = Some v → fields !! k = Some v.

(** ** HTTP messages *)

(** The arguments of one [requests.request] call. *)
Record HttpRequest : Type := {
  req_method : string;
  req_url : string;
  req_params : gmap string string;
  req_data : option value;
  req_headers : option (gmap string string)
}.

(** The header mapping of a response. As in [requests], an entry is stored
    under the lower-cased name together with the name as it was sent, and
    [get] answers [None] for a name that is absent. *)
Module CaseInsensitiveDict.
Record t : Type := { _store : gmap string (string * string) }.

Definition get (h : t) (key : string) : option string :=
  snd <$> _store h !! lower key.

Definition setitem (h : t) (key val : string) : t :=
  {| _store := <[lower key := (key, val)]> (_store h) |}.

Definition of_list (l : list (string * string)) : t :=
  foldl (fun h kv => setitem h kv.1 kv.2) {| _store := ∅ |} l.
End CaseInsensitiveDict.

Module Response.
Record t : Type := {
  headers : CaseInsensitiveDict.t;
  content : bytes;
  status_code : Z
}.
End Response.

(** ** What the module imports *)

(** The collaborators of [client.py]. [requests_request] and [webdriver_get]
    answer from the calls made so far (most recent first) and the present
    one, so the service and the web may change between two calls;
    [webdriver_get] is [driver.get(url)] followed by [driver.page_source].
    [int_of_str] is the builtin [int] applied to a [str]. The last four
    fields are the entity classes that the accessors instantiate. *)
Class Env : Type := {
  requests_request : list HttpRequest -> HttpRequest -> result Response.t;
  json_loads : bytes -> result value;
  int_of_str : string -> result Z;
  webdriver_get : list string -> string -> result string;
  scrape_listings_from_marketplace : string -> Z -> result value;
  Release : dataclass;
  Listing : dataclass;
  UserList : dataclass;
  ReleaseStats : dataclass
}.

(** [int(x)] where [x] is what [headers.get] returned: [int(None)] raises
    [TypeError]. *)
Definition int `{Env} (x : option string) : result Z :=
  match x with
  | Some s => int_of_str s
  | None => Raise TypeError
  end.

(** ** Methods *)

(** What a method can read and change: the object it is called on, the
    requests that went out and the records written to the module's logger
    (both most recent first). *)
Record World (Self : Type) : Type := {
  self : Self;
  sent : list HttpRequest;
  logged : list (Z * bytes)
}.
Arguments self {Self} w.
Arguments sent {Self} w.
Arguments logged {Self} w.

(** A method body: from the world before the call to the world after it and
    the value returned or the exception raised. *)
Definition M (Self A : Type) : Type := World Self -> World Self * result A.

#[global] Instance M_ret Self : MRet (M Self) := fun A a w => (w, Ok a).
#[global] Instance M_bind Self : MBind (M Self) := fun A B k m w =>
  match m w with
  | (w', Ok a) => k a w'
  | (w', Raise e) => (w', Raise e)
  end.

Definition lift {Self A} (r : result A) : M Self A := fun w => (w, r).

Definition raise {Self A} (e : exn) : M Self A := lift (Raise e).

Definition get_self {Self} : M Self Self := fun w => (w, Ok (self w)).

Definition set_self {Self} (f : Self -> Self) : M Self unit := fun w =>
  ({| self := f (self w); sent := sent w; logged := logged w |}, Ok tt).

(** [logger.info] with the message of [_get], recorded by the two values
    that the message formats: the status code and the body. *)
Definition with_log {Self} (w : World Self) (status : Z) (body : bytes) : World Self :=
  {| self := self w; sent := sent w; logged := (status, body) :: logged w |}.

Definition logger_info {Self} (status : Z) (body : bytes) : M Self unit := fun w =>
  (with_log w status body, Ok tt).

(** One call of [requests.request]: the request goes out and the service
    answers or the library raises. *)
Definition requests_call `{Env} {Self} (req : HttpRequest) : M Self Response.t := fun w =>
  ({| self := self w; sent := req :: sent w; logged := logged w |},
   requests_request (sent w) req).

(** The method every client class has to provide, [self._request]. *)
Class Transport (Self : Type) : Type :=
  _request : string -> string -> option value -> option (gmap string string) ->
             M Self (bytes * Z).

Inductive UserAgent : Type :=
  | UA_str (s : string)
  | UA_fake.

Module Client.
Record t : Type := {
  user_agent : UserAgent;
  verbose : bool;
  rate_limit : option Z;
  rate_limit_used : option Z;
  rate_limit_remaining : option Z
}.

Definition _base_url : string := "https://api.discogs.com".
Definition _base_url_non_api : string := "https://www.discogs.com".

Definition __init__ (user_agent : string) : t :=
  {| user_agent := UA_str user_agent;
     verbose := false;
     rate_limit := None;
     rate_limit_used := None;
     rate_limit_remaining := None |}.

Section methods.
Context `{Env} {Self : Type} `{Transport Self}.

Definition _get (url : string) (is_api : bool) : M Self value :=
  '(response_content, status_code) ← _request "GET" url None None;
  if bool_decide (status_code ≠ 200) then
    _ ← logger_info status_code response_content;
    mret VFalse
  else if is_api then lift (json_loads response_content)
  else mret (VBytes response_content).

Definition _delete (url : string) (is_api : bool) : M Self (bytes * Z) :=
  _request "DELETE" url None None.

Definition _patch (url : string) (data : value) (is_api : bool) : M Self (bytes * Z) :=
  _request "PATCH" url (Some data) None.

Definition _post (url : string) (data : value) (is_api : bool) : M Self (bytes * Z) :=
  _request "POST" url (Some data) None.

Definition _put (url : string) (data : value) (is_api : bool) : M Self (bytes * Z) :=
  _request "PUT" url (Some data) None.

Definition get_list (list_id : Z) : M Self value :=
  user_list_dict ← _get (_base_url +:+ "/lists/" +:+ pretty list_id) true;
  raw_items ← lift (getitem user_list_dict "items");
  items ← lift (iter raw_items);
  releases ← lift (comprehension (fun item => kwargs item ≫= new Release) items);
  user_list_dict ← lift (setitem user_list_dict "items" (VList releases));
  lift (kwargs user_list_dict ≫= new UserList).

Definition get_listing (listing_id : Z) : M Self value :=
  listing_dict ← _get (_base_url +:+ "/marketplace/listings/" +:+ pretty listing_id) true;
  lift (kwargs listing_dict ≫= new Listing).

Definition get_release (release_id : Z) : M Self value :=
  release_dict ← _get (_base_url +:+ "/releases/" +:+ pretty release_id) true;
  lift (kwargs release_dict ≫= new Release).

Definition get_release_stats (release_id : Z) : M Self value :=
  release_stats_dict ← _get (_base_url +:+ "/marketplace/stats/" +:+ pretty release_id) true;
  if isinstance_dict release_stats_dict
  then lift (kwargs release_stats_dict ≫= new ReleaseStats)
  else mret VFalse.

Definition get_wantlist (username : string) : M Self value :=
  let url := _base_url +:+ "/users/" +:+ username +:+ "/wants" in
  _get url true.
End methods.

(** The base class leaves the transport to its subclasses. *)
#[global] Instance _request : Transport t :=
  fun method url data headers => raise NotImplementedError.
End Client.

Module UserTokenClient.
Record t : Type := {
  base : Client.t;
  user_token : string
}.

Definition __init__ (user_agent user_token : string) : t :=
  {| base := Client.__init__ user_agent; user_token := user_token |}.

Definition set_rate_limit (n : Z) (s : t) : t :=
  {| base := {| Client.user_agent := Client.user_agent (base s);
                Client.verbose := Client.verbose (base s);
                Client.rate_limit := Some n;
                Client.rate_limit_used := Client.rate_limit_used (base s);
                Client.rate_limit_remaining := Client.rate_limit_remaining (base s) |};
     user_token := user_token s |}.

Definition set_rate_limit_used (n : Z) (s : t) : t :=
  {| base := {| Client.user_agent := Client.user_agent (base s);
                Client.verbose := Client.verbose (base s);
                Client.rate_limit := Client.rate_limit (base s);
                Client.rate_limit_used := Some n;
                Client.rate_limit_remaining := Client.rate_limit_remaining (base s) |};
     user_token := user_token s |}.

Definition set_rate_limit_remaining (n : Z) (s : t) : t :=
  {| base := {| Client.user_agent := Client.user_agent (base s);
                Client.verbose := Client.verbose (base s);
                Client.rate_limit := Client.rate_limit (base s);
                Client.rate_limit_used := Client.rate_limit_used (base s);
                Client.rate_limit_remaining := Some n |};
     user_token := user_token s |}.

#[global] Instance _request `{Env} : Transport t :=
  fun method url data headers =>
    this ← get_self;
    let params : gmap string string := {[ "token" := user_token this ]} in
    resp ← requests_call {| req_method := method; req_url := url;
                            req_params := params; req_data := data;
                            req_headers := headers |};
    n ← lift (int (CaseInsensitiveDict.get (Response.headers resp) "X-Discogs-Ratelimit"));
    _ ← set_self (set_rate_limit n);
    n ← lift (int (CaseInsensitiveDict.get (Response.headers resp) "X-Discogs-Ratelimit-Used"));
    _ ← set_self (set_rate_limit_used n);
    n ← lift (int (CaseInsensitiveDict.get (Response.headers resp) "X-Discogs-Ratelimit-Remaining"));
    _ ← set_self (set_rate_limit_remaining n);
    mret (Response.content resp, Response.status_code resp).

(** The methods inherited from [Client], bound to this class's [_request]. *)
Section inherited.
Context `{Env}.
Definition _get : string -> bool -> M t value := Client._get.
Definition get_list : Z -> M t value := Client.get_list.
Definition get_listing : Z -> M t value := Client.get_listing.
Definition get_release : Z -> M t value := Client.get_release.
Definition get_release_stats : Z -> M t value := Client.get_release_stats.
Definition get_wantlist : string -> M t value := Client.get_wantlist.
End inherited.
End UserTokenClient.

(** The browser session of an [AnonClient]: the pages it was sent to (most
    recent first) and the source of the page it shows. *)
Record Driver : Type := {
  visited : list string;
  page_source : string
}.

Module AnonClient.
Record t : Type := {
  base : Client.t;
  driver : Driver
}.

(** The constructor, given the session that [webdriver.Chrome] started:
    it runs the base constructor and then replaces the user agent by a
    [fake_useragent.UserAgent]. Finding the driver binary and the options
    of the browser are left out. *)
Definition __init__ (user_agent : string) (session : Driver) : t :=
  let s := Client.__init__ user_agent in
  {| base := {| Client.user_agent := UA_fake;
                Client.verbose := Client.verbose s;
                Client.rate_limit := Client.rate_limit s;
                Client.rate_limit_used := Client.rate_limit_used s;
                Client.rate_limit_remaining := Client.rate_limit_remaining s |};
     driver := session |}.

(** Inherited from [Client]. *)
#[global] Instance _request : Transport t :=
  fun method url data headers => raise NotImplementedError.

(** [self.driver.get(url)]: the page is recorded as visited and, unless
    the driver raises, its rendered source becomes the page source. *)
Definition driver_get `{Env} (url : string) : M t unit := fun w =>
  let d := driver (self w) in
  match webdriver_get (visited d) url with
  | Ok html =>
      ({| self := {| base := base (self w);
                     driver := {| visited := url :: visited d; page_source := html |} |};
          sent := sent w; logged := logged w |}, Ok tt)
  | Raise e =>
      ({| self := {| base := base (self w);
                     driver := {| visited := url :: visited d;
                                  page_source := page_source d |} |};
          sent := sent w; logged := logged w |}, Raise e)
  end.

Definition get_marketplace_listings `{Env} (release_id : Z) : M t value :=
  _ ← driver_get (Client._base_url_non_api +:+ "/sell/release/" +:+ pretty release_id
                  +:+ "?ev=rb&sort=price%2Casc");
  this ← get_self;
  lift (scrape_listings_from_marketplace (page_source (driver this)) release_id).

(** The methods inherited from [Client], bound to this class's [_request]. *)
Section inherited.
Context `{Env}.
Definition _get : string -> bool -> M t value := Client._get.
Definition get_list : Z -> M t value := Client.get_list.
Definition get_listing : Z -> M t value := Client.get_listing.
Definition get_release : Z -> M t value := Client.get_release.
Definition get_release_stats : Z -> M t value := Client.get_release_stats.
Definition get_wantlist : string -> M t value := Client.get_wantlist.
End inherited.
End AnonClient.

(** The request that a token client in the world [w] hands to [requests]
    for the given method, URL, data and headers. *)
Definition token_request (w : World UserTokenClient.t) (method url : string)
    (data : option value) (hdrs : option (gmap string string)) : HttpRequest :=
  {| req_method := method; req_url := url;
     req_params := {[ "token" := UserTokenClient.user_token (self w) ]};
     req_data := data; req_headers := hdrs |}.

(** ** A reference environment *)

(** A decoder for a subset of JSON ([null], [true], [false], integers,
    strings without escapes, arrays, objects), a decimal [int] and a small
    entity schema. They instantiate [Env] for the examples below; the
    theorems do not depend on them. *)
Module Reference.
#[local] Open Scope char_scope.

Definition is_ws (c : ascii) : bool :=
  match c with
  | " " | "009" | "010" | "013" => true
  | _ => false
  end.

Definition digit (c : ascii) : option Z :=
  let n := Z.of_nat (nat_of_ascii c) in
  if ((48 <=? n) && (n <=? 57))%Z then Some (n - 48)%Z else None.

Fixpoint skip_ws (s : string) : string :=
  match s with
  | String c s' => if is_ws c then skip_ws s' else s
  | EmptyString => s
  end.

(** The digits at the front of [s], read into [acc]; the number of digits
    read, the value and the rest of [s]. *)
Fixpoint digits (s : string) (acc : Z) : nat * Z * string :=
  match s with
  | String c s' =>
      match digit c with
      | Some d => let '(k, n, r) := digits s' (10 * acc + d)%Z in (S k, n, r)
      | None => (O, acc, s)
      end
  | EmptyString => (O, acc, s)
  end.

Definition number (s : string) : option (Z * string) :=
  match s with
  | String "-" s' =>
      match digits s' 0%Z with
      | (O, _, _) => None
      | (_, n, r) => Some ((- n)%Z, r)
      end
  | _ =>
      match digits s 0%Z with
      | (O, _, _) => None
      | (_, n, r) => Some (n, r)
      end
  end.

(** The characters up to the closing quote. *)
Fixpoint str_body (s : string) : option (string * string) :=
  match s with
  | String "034" r => Some (EmptyString, r)
  | String "\" _ => None
  | String c s' => '(b, r) ← str_body s'; Some (String c b, r)
  | EmptyString => None
  end.

Definition keyword (k : string) (v : value) (s : string) : option (value * string) :=
  if String.prefix k s
  then Some (v, String.substring (String.length k) (String.length s - String.length k) s)
  else None.

Section containers.
Variable pv : string -> option (value * string).

Fixpoint elements (fuel : nat) (s : string) : option (list value * string) :=
  match fuel with
  | O => None
  | S fuel' =>
      '(v, s1) ← pv (skip_ws s);
      match skip_ws s1 with
      | String "," s2 => '(vs, s3) ← elements fuel' s2; Some (v :: vs, s3)
      | String "]" s2 => Some ([v], s2)
      | _ => None
      end
  end.

Fixpoint members (fuel : nat) (s : string)
  : option (list (string * value) * string) :=
  match fuel with
  | O => None
  | S fuel' =>
      match skip_ws s with
      | String "034" s0 =>
          '(k, s1) ← str_body s0;
          match skip_ws s1 with
          | String ":" s2 =>
              '(v, s3) ← pv (skip_ws s2);
              match skip_ws s3 with
              | String "," s4 => '(kvs, s5) ← members fuel' s4; Some ((k, v) :: kvs, s5)
              | String "}" s4 => Some ([(k, v)], s4)
              | _ => None
              end
          | _ => None
          end
      | _ => None
      end
  end.
End containers.

(** A later member overrides an earlier one of the same name. *)
Definition object (kvs : list (string * value)) : value :=
  VDict (foldl (fun d kv => <[kv.1 := kv.2]> d) ∅ kvs).

Fixpoint parse_value (fuel : nat) (s : string) : option (value * string) :=
  match fuel with
  | O => None
  | S fuel' =>
      match s with
      | String "n" _ => keyword "null" VNone s
      | String "t" _ => keyword "true" (VBool true) s
      | String "f" _ => keyword "false" (VBool false) s
      | String "034" s' => '(b, r) ← str_body s'; Some (VStr b, r)
      | String "[" s' =>
          match skip_ws s' with
          | String "]" r => Some (VList [], r)
          | _ => '(vs, r) ← elements (parse_value fuel') fuel' s'; Some (VList vs, r)
          end
      | String "{" s' =>
          match skip_ws s' with
          | String "}" r => Some (VDict ∅, r)
          | _ => '(kvs, r) ← members (parse_value fuel') fuel' s'; Some (object kvs, r)
          end
      | _ => '(n, r) ← number s; Some (VInt n, r)
      end
  end.

Definition loads (b : bytes) : result value :=
  let s := decode b in
  match parse_value (S (String.length s)) (skip_ws s) with
  | Some (v, r) =>
      match skip_ws r with
      | EmptyString => Ok v
      | _ => Raise JSONDecodeError
      end
  | None => Raise JSONDecodeError
  end.

Definition decimal_int (s : string) : result Z :=
  match number s with
  | Some (n, EmptyString) => Ok n
  | _ => Raise ValueError
  end.

#[local] Close Scope char_scope.

Definition Release : dataclass :=
  {| dc_name := "Release";
     dc_fields := [("id", None); ("title", Some VNone)] |}.

Definition Listing : dataclass :=
  {| dc_name := "Listing";
     dc_fields := [("id", None); ("price", Some VNone)] |}.

Definition UserList : dataclass :=
  {| dc_name := "UserList";
     dc_fields := [("id", None); ("name", None); ("items", None)] |}.

Definition ReleaseStats : dataclass :=
  {| dc_name := "ReleaseStats";
     dc_fields := [("num_for_sale", None); ("lowest_price", Some VNone)] |}.

(** A parser stand-in that keeps both of its arguments. *)
Definition scrape (html : string) (release_id : Z) : result value :=
  Ok (VObj "Listings" {[ "release_id" := VInt release_id; "source" := VStr html ]}).

Definition env (service : list HttpRequest -> HttpRequest -> result Response.t)
    (web : list string -> string -> result string) : Env :=
  Build_Env service loads decimal_int web scrape
            Release Listing UserList ReleaseStats.

Definition quota : list (string * string) :=
  [("X-Discogs-Ratelimit", "60"); ("X-Discogs-Ratelimit-Used", "3");
   ("X-Discogs-Ratelimit-Remaining", "57")].

(** A service that gives every request the same answer. *)
Definition always (status : Z) (hdrs : list (string * string)) (body : string)
  : list HttpRequest -> HttpRequest -> result Response.t :=
  fun _ _ => Ok {| Response.headers := CaseInsensitiveDict.of_list hdrs;
                   Response.content := encode body;
                   Response.status_code := status |}.

Definition offline : list string -> string -> result string :=
  fun _ _ => Raise WebDriverException.

Definition static (html : string) : list string -> string -> result string :=
  fun _ _ => Ok html.

(** Example bodies are written with apostrophes where JSON has double
    quotes. *)
Fixpoint dq (s : string) : string :=
  match s with
  | EmptyString => EmptyString
  | String c s' => String (if Ascii.eqb c "'"%char then "034"%char else c) (dq s')
  end.

Definition token_world : World UserTokenClient.t :=
  {| self := UserTokenClient.__init__ "agent" "secret"; sent := []; logged := [] |}.

Definition anon_world : World AnonClient.t :=
  {| self := AnonClient.__init__ "agent" {| visited := []; page_source := EmptyString |};
     sent := []; logged := [] |}.

(** Every read is answered with 404. *)
Definition env_not_found : Env := env (always 404 quota "not found") offline.

(** Every read is answered with 200 and the given JSON text. *)
Definition env_json (text : string) : Env := env (always 200 quota (dq text)) offline.

(** Every read is answered with 200, but the last quota header is absent. *)
Definition env_no_remaining : Env :=
  env (always 200 [("X-Discogs-Ratelimit", "60"); ("X-Discogs-Ratelimit-Used", "3")]
              "{}") offline.

(** The browser renders every page as the same document. *)
Definition env_web : Env := env (always 200 quota "{}") (static "<html></html>").

Definition list_text : string :=
  "{'id': 7, 'name': 'wants', 'items': [{'id': 1}, {'id': 2, 'title': 'Blue'}]}".

Definition list_items : list (gmap string value) :=
  [ {[ "id" := VInt 1 ]};
    <[ "title" := VStr "Blue" ]> {[ "id" := VInt 2 ]} ].

Definition list_dict : gmap string value :=
  <[ "items" := VList (VDict <$> list_items) ]>
    (<[ "name" := VStr "wants" ]> {[ "id" := VInt 7 ]}).

(** The service cannot be reached. *)
Definition down : list HttpRequest -> HttpRequest -> result Response.t :=
  fun _ _ => Raise RequestException.

Definition env_down : Env := env down offline.

(** The browser cannot load any page. *)
Definition env_no_browser : Env := env (always 200 quota "{}") offline.
End Reference.

(** Closed goals are settled by evaluation. *)
Ltac by_eval := vm_compute; reflexivity.

(** * Properties *)

(** ** Comprehensions and entity construction *)

Lemma comprehension_Forall2 {A B} (f : A -> result B) (l : list A) (rs : list B) :
  comprehension f l = Ok rs ↔ Forall2 (fun x r => f x = Ok r) l rs.
Proof.
  revert rs. induction l as [|x l IH]; intros rs; simpl.
  - split.
    + intros [= <-]. constructor.
    + intros Hnil. by inversion Hnil.
  - unfold mbind, result_bind, mret, result_ret. split.
    + destruct (f x) as [y|e] eqn:Hx; [|done].
      destruct (comprehension f l) as [ys|e] eqn:Hl; [|done].
      intros [= <-]. constructor; [done|]. by apply IH.
    + intros Hcons. inversion Hcons as [|? r ? rs' Hx Hrest]; subst.
      rewrite Hx. apply IH in Hrest. by rewrite Hrest.
Qed.

Lemma comprehension_length {A B} (f : A -> result B) (l : list A) (rs : list B) :
  comprehension f l = Ok rs → length rs = length l.
Proof.
  intros Hc. apply comprehension_Forall2 in Hc.
  symmetry. by eapply Forall2_length.
Qed.

Lemma keys_are_fields (names : list string) (kw : gmap string value) :
  forallb (fun k => bool_decide (k ∈ names)) (map_to_list kw).*1 = true ↔
  ∀ k, is_Some (kw !! k) → k ∈ names.
Proof.
  rewrite forallb_forall. split.
  - intros Hall k [v Hk]. specialize (Hall k).
    rewrite bool_decide_eq_true in Hall. apply Hall.
    apply list_elem_of_In, list_elem_of_fmap. exists (k, v). split; [done|].
    by apply elem_of_map_to_list.
  - intros Hall k Hin. apply bool_decide_eq_true, Hall.
    apply list_elem_of_In, list_elem_of_fmap in Hin as [[k' v] [-> Hin]].
    apply elem_of_map_to_list in Hin. by exists v.
Qed.

Lemma bind_fields_ok (kw : gmap string value) (fds : list (string * option value)) :
  (∀ f, (f, None) ∈ fds → is_Some (kw !! f)) →
  ∃ fs, comprehension (bind_field kw) fds = Ok fs ∧
        ∀ k v, kw !! k = Some v → k ∈ fds.*1 →
               (list_to_map fs : gmap string value) !! k = Some v.
Proof.
  induction fds as [|[f dflt] fds IH]; intros Hreq.
  - exists []. split; [done|]. intros k v _ Hin. by apply elem_of_nil in Hin.
  - destruct IH as (fs & Hfs & Hlook).
    { intros g Hg. apply Hreq. by right. }
    assert (∃ v0, bind_field kw (f, dflt) = Ok (f, v0) ∧
                  ∀ v, kw !! f = Some v → v0 = v) as (v0 & Hb & Hv0).
    { unfold bind_field; simpl. destruct (kw !! f) as [v|] eqn:Hf.
      - exists v. split; [done|]. by intros ? [= ->].
      - destruct dflt as [v|].
        + exists v. by split.
        + destruct (Hreq f) as [v Hv]; [by left|]. congruence. }
    exists ((f, v0) :: fs). split.
    + simpl. rewrite Hb, Hfs. done.
    + intros k v Hk Hin. simpl. destruct (decide (f = k)) as [->|Hne].
      * rewrite lookup_insert_eq. f_equal. by apply Hv0.
      * rewrite lookup_insert_ne by done. apply Hlook; [done|].
        simpl in Hin. apply elem_of_cons in Hin as [?|?]; [congruence|done].
Qed.

Lemma bind_fields_required (kw : gmap string value) fds fs :
  comprehension (bind_field kw) fds = Ok fs →
  ∀ f, (f, None) ∈ fds → is_Some (kw !! f).
Proof.
  revert fs. induction fds as [|[g dflt] fds IH]; intros fs Hc f Hin.
  - by apply elem_of_nil in Hin.
  - simpl in Hc. unfold mbind, result_bind in Hc.
    destruct (bind_field kw (g, dflt)) as [p|] eqn:Hb; [|done].
    destruct (comprehension (bind_field kw) fds) as [fs'|] eqn:Hfs; [|done].
    apply elem_of_cons in Hin as [[= <- <-]|Hin]; [|by eapply IH].
    unfold bind_field in Hb; simpl in Hb. by destruct (kw !! f).
Qed.

(** Construction succeeds on a mapping that fits the class, and the
    instance holds the mapping's entries. *)
Lemma new_conforms (C : dataclass) (kw : gmap string value) :
  conforms C kw → ∃ o, new C kw = Ok o ∧ populated C kw o.
Proof.
  intros [Hkeys Hreq]. unfold new.
  apply keys_are_fields in Hkeys as Hcheck. rewrite Hcheck.
  destruct (bind_fields_ok kw (dc_fields C) Hreq) as (fs & -> & Hlook).
  eexists. split; [reflexivity|]. eexists. split; [reflexivity|].
  intros k v Hk. apply Hlook; [done|]. apply Hkeys. by exists v.
Qed.

(** Construction succeeds on no other mapping. *)
Lemma new_ok_conforms (C : dataclass) (kw : gmap string value) (o : value) :
  new C kw = Ok o → conforms C kw.
Proof.
  unfold new. intros Hnew.
  destruct (forallb _ _) eqn:Hcheck; [|done].
  unfold mbind, result_bind in Hnew.
  destruct (comprehension (bind_field kw) (dc_fields C)) as [fs|] eqn:Hfs; [|done].
  split; [by apply keys_are_fields|by eapply bind_fields_required].
Qed.

Lemma new_populated (C : dataclass) (kw : gmap string value) (o : value) :
  new C kw = Ok o → populated C kw o.
Proof.
  intros Hnew. destruct (new_conforms C kw) as (o' & Ho' & Hpop).
  - by eapply new_ok_conforms.
  - congruence.
Qed.

Lemma new_all_conform (C : dataclass) (ms : list (gmap string value)) :
  Forall (conforms C) ms → ∃ rs, Forall2 (fun m r => new C m = Ok r) ms rs.
Proof.
  induction 1 as [|m ms Hm _ [rs IH]]; [by exists []|].
  destruct (new_conforms _ _ Hm) as (r & Hr & _).
  exists (r :: rs). by constructor.
Qed.

Lemma populated_getattr (C : dataclass) (kw : gmap string value) (o v : value) k :
  populated C kw o → kw !! k = Some v → getattr o k = Ok v.
Proof.
  intros (fields & -> & Hlook) Hk. simpl. by rewrite (Hlook k v Hk).
Qed.

(** ** The read path *)

Section read_path.
Context `{Env} {Self : Type} `{Transport Self}.

(** [_get] by the outcome of its one call of [_request]. *)
Lemma _get_unfold (url : string) (is_api : bool) (w : World Self) :
  Client._get url is_api w =
  match _request "GET" url None None w with
  | (w', Ok (body, status)) =>
      if bool_decide (status ≠ 200) then (with_log w' status body, Ok VFalse)
      else (w', if is_api then json_loads body else Ok (VBytes body))
  | (w', Raise e) => (w', Raise e)
  end.
Proof.
  unfold Client._get, mbind, M_bind.
  destruct (_request "GET" url None None w) as [w' [[body status]|e]]; [|done].
  destruct (bool_decide (status ≠ 200)); [done|]. by destruct is_api.
Qed.

Lemma _get_non200 url is_api (w w' : World Self) body status :
  _request "GET" url None None w = (w', Ok (body, status)) →
  status ≠ 200 →
  Client._get url is_api w = (with_log w' status body, Ok VFalse).
Proof.
  intros Hreq Hst. rewrite _get_unfold, Hreq.
  by rewrite bool_decide_eq_true_2.
Qed.

Lemma _get_200 url (w w' : World Self) body :
  _request "GET" url None None w = (w', Ok (body, 200)) →
  Client._get url true w = (w', json_loads body).
Proof.
  intros Hreq. rewrite _get_unfold, Hreq.
  by rewrite bool_decide_eq_false_2 by (intros Hne; by apply Hne).
Qed.

Lemma _get_raise url is_api (w w' : World Self) e :
  _request "GET" url None None w = (w', Raise e) →
  Client._get url is_api w = (w', Raise e).
Proof. intros Hreq. by rewrite _get_unfold, Hreq. Qed.

(** Apart from the log, [_get] leaves the world as [_request] left it. *)
Lemma _get_frame url is_api (w : World Self) :
  self (Client._get url is_api w).1 = self (_request "GET" url None None w).1 ∧
  sent (Client._get url is_api w).1 = sent (_request "GET" url None None w).1.
Proof.
  rewrite _get_unfold.
  destruct (_request "GET" url None None w) as [w' [[body status]|e]]; [|done].
  by destruct (bool_decide (status ≠ 200)).
Qed.

(** What follows [_get] in an accessor is pure: the world after the
    accessor is the world after [_get]. *)
Lemma accessors_world (w : World Self) (id : Z) (name : string) :
  (Client.get_release id w).1
    = (Client._get (Client._base_url +:+ "/releases/" +:+ pretty id) true w).1 ∧
  (Client.get_listing id w).1
    = (Client._get (Client._base_url +:+ "/marketplace/listings/" +:+ pretty id) true w).1 ∧
  (Client.get_list id w).1
    = (Client._get (Client._base_url +:+ "/lists/" +:+ pretty id) true w).1 ∧
  (Client.get_release_stats id w).1
    = (Client._get (Client._base_url +:+ "/marketplace/stats/" +:+ pretty id) true w).1 ∧
  (Client.get_wantlist name w).1
    = (Client._get (Client._base_url +:+ "/users/" +:+ name +:+ "/wants") true w).1.
Proof.
  unfold Client.get_release, Client.get_listing, Client.get_list,
    Client.get_release_stats, Client.get_wantlist, mbind, M_bind, lift.
  repeat split.
  - by destruct (Client._get _ true w) as [w' [v|e]].
  - by destruct (Client._get _ true w) as [w' [v|e]].
  - destruct (Client._get _ true w) as [w' [v|e]]; [|done]. simpl.
    destruct (getitem v "items") as [raw|e]; [|done].
    destruct (iter raw) as [items|e]; [|done].
    destruct (comprehension _ items) as [rs|e]; [|done].
    by destruct (setitem v "items" (VList rs)) as [d|e].
  - destruct (Client._get _ true w) as [w' [v|e]]; [|done].
    by destruct (isinstance_dict v).
Qed.
End read_path.

(** ** The token transport *)

Section token_transport.
Context `{Env}.

Implicit Types (w : World UserTokenClient.t) (method url : string)
  (data : option value) (hdrs : option (gmap string string)).

(** The request goes out with the token whatever happens next. *)
Lemma token_request_sent w method url data hdrs :
  sent (UserTokenClient._request method url data hdrs w).1
  = {| req_method := method; req_url := url;
       req_params := {[ "token" := UserTokenClient.user_token (self w) ]};
       req_data := data; req_headers := hdrs |} :: sent w.
Proof.
  unfold UserTokenClient._request, mbind, M_bind, requests_call, get_self,
    set_self, lift. simpl.
  destruct (requests_request _ _) as [resp|e]; [|done]. simpl.
  destruct (int (CaseInsensitiveDict.get _ "X-Discogs-Ratelimit")); [|done]. simpl.
  destruct (int (CaseInsensitiveDict.get _ "X-Discogs-Ratelimit-Used")); [|done]. simpl.
  by destruct (int (CaseInsensitiveDict.get _ "X-Discogs-Ratelimit-Remaining")).
Qed.

(** With the three headers present and integral, the call returns the body
    and the status, and the tracker holds the three integers. *)
Lemma token_request_ok w method url data hdrs resp s1 s2 s3 n1 n2 n3 :
  requests_request (sent w)
    {| req_method := method; req_url := url;
       req_params := {[ "token" := UserTokenClient.user_token (self w) ]};
       req_data := data; req_headers := hdrs |} = Ok resp →
  CaseInsensitiveDict.get (Response.headers resp) "X-Discogs-Ratelimit" = Some s1 →
  CaseInsensitiveDict.get (Response.headers resp) "X-Discogs-Ratelimit-Used" = Some s2 →
  CaseInsensitiveDict.get (Response.headers resp) "X-Discogs-Ratelimit-Remaining" = Some s3 →
  int_of_str s1 = Ok n1 → int_of_str s2 = Ok n2 → int_of_str s3 = Ok n3 →
  UserTokenClient._request method url data hdrs w =
  ({| self := {| UserTokenClient.base :=
                   {| Client.user_agent := Client.user_agent (UserTokenClient.base (self w));
                      Client.verbose := Client.verbose (UserTokenClient.base (self w));
                      Client.rate_limit := Some n1;
                      Client.rate_limit_used := Some n2;
                      Client.rate_limit_remaining := Some n3 |};
                 UserTokenClient.user_token := UserTokenClient.user_token (self w) |};
      sent := {| req_method := method; req_url := url;
                 req_params := {[ "token" := UserTokenClient.user_token (self w) ]};
                 req_data := data; req_headers := hdrs |} :: sent w;
      logged := logged w |},
   Ok (Response.content resp, Response.status_code resp)).
Proof.
  intros Hresp Hh1 Hh2 Hh3 Hn1 Hn2 Hn3.
  unfold UserTokenClient._request, mbind, M_bind, requests_call, get_self,
    set_self, lift. simpl.
  rewrite Hresp. simpl. rewrite Hh1. simpl. rewrite Hn1. simpl.
  rewrite Hh2. simpl. rewrite Hn2. simpl.
  rewrite Hh3. simpl. rewrite Hn3. done.
Qed.

(** Without one of the three headers the call raises. *)
Lemma token_request_missing w method url data hdrs resp :
  requests_request (sent w)
    {| req_method := method; req_url := url;
       req_params := {[ "token" := UserTokenClient.user_token (self w) ]};
       req_data := data; req_headers := hdrs |} = Ok resp →
  CaseInsensitiveDict.get (Response.headers resp) "X-Discogs-Ratelimit" = None ∨
  CaseInsensitiveDict.get (Response.headers resp) "X-Discogs-Ratelimit-Used" = None ∨
  CaseInsensitiveDict.get (Response.headers resp) "X-Discogs-Ratelimit-Remaining" = None →
  ∃ e, (UserTokenClient._request method url data hdrs w).2 = Raise e.
Proof.
  intros Hresp Hmissing.
  unfold UserTokenClient._request, mbind, M_bind, requests_call, get_self,
    set_self, lift. simpl.
  rewrite Hresp. simpl.
  destruct (int (CaseInsensitiveDict.get _ "X-Discogs-Ratelimit")) as [n1|e1] eqn:H1;
    simpl; [|by eexists].
  destruct (int (CaseInsensitiveDict.get _ "X-Discogs-Ratelimit-Used")) as [n2|e2] eqn:H2;
    simpl; [|by eexists].
  destruct (int (CaseInsensitiveDict.get _ "X-Discogs-Ratelimit-Remaining")) as [n3|e3] eqn:H3;
    simpl; [|by eexists].
  destruct Hmissing as [Hm|[Hm|Hm]]; rewrite Hm in *; discriminate.
Qed.

(** The first absent header raises the [TypeError] of [int(None)], when the
    headers before it are integral. *)
Lemma token_request_first_missing w method url data hdrs resp :
  requests_request (sent w)
    {| req_method := method; req_url := url;
       req_params := {[ "token" := UserTokenClient.user_token (self w) ]};
       req_data := data; req_headers := hdrs |} = Ok resp →
  CaseInsensitiveDict.get (Response.headers resp) "X-Discogs-Ratelimit" = None →
  (UserTokenClient._request method url data hdrs w).2 = Raise TypeError ∧
  self (UserTokenClient._request method url data hdrs w).1 = self w.
Proof.
  intros Hresp Hmissing.
  unfold UserTokenClient._request, mbind, M_bind, requests_call, get_self,
    set_self, lift. simpl.
  rewrite Hresp. simpl. rewrite Hmissing. done.
Qed.

(** A call that [requests] itself fails leaves the tracker as it was. *)
Lemma token_request_network_error w method url data hdrs e :
  requests_request (sent w)
    {| req_method := method; req_url := url;
       req_params := {[ "token" := UserTokenClient.user_token (self w) ]};
       req_data := data; req_headers := hdrs |} = Raise e →
  (UserTokenClient._request method url data hdrs w).2 = Raise e ∧
  self (UserTokenClient._request method url data hdrs w).1 = self w.
Proof.
  intros Hresp.
  unfold UserTokenClient._request, mbind, M_bind, requests_call, get_self,
    set_self, lift. simpl.
  rewrite Hresp. done.
Qed.

End token_transport.

(** ** The typed accessors *)

Section accessors.
Context `{Env} {Self : Type} `{Transport Self}.

Implicit Types (w : World Self) (id : Z) (name url : string) (body : bytes).

(** C1. A read answered with a status other than 200 makes [_get] log and
    return [False]. [get_release_stats] and [get_wantlist] hand that [False]
    to their caller; [get_release], [get_listing] and [get_list] do not: they
    unpack or subscript the [False] and raise [TypeError]. *)
Theorem non200_sentinel_and_type_errors w w' url body status :
  _request "GET" url None None w = (w', Ok (body, status)) →
  status ≠ 200 →
  (∀ is_api, Client._get url is_api w = (with_log w' status body, Ok VFalse)) ∧
  (∀ id, url = Client._base_url +:+ "/marketplace/stats/" +:+ pretty id →
         Client.get_release_stats id w = (with_log w' status body, Ok VFalse)) ∧
  (∀ name, url = Client._base_url +:+ "/users/" +:+ name +:+ "/wants" →
           Client.get_wantlist name w = (with_log w' status body, Ok VFalse)) ∧
  (∀ id, url = Client._base_url +:+ "/releases/" +:+ pretty id →
         Client.get_release id w = (with_log w' status body, Raise TypeError)) ∧
  (∀ id, url = Client._base_url +:+ "/marketplace/listings/" +:+ pretty id →
         Client.get_listing id w = (with_log w' status body, Raise TypeError)) ∧
  (∀ id, url = Client._base_url +:+ "/lists/" +:+ pretty id →
         Client.get_list id w = (with_log w' status body, Raise TypeError)).
Proof.
  intros Hreq Hst.
  assert (∀ is_api, Client._get url is_api w = (with_log w' status body, Ok VFalse))
    as Hget by (intros; by apply _get_non200).
  split; [done|].
  repeat split; intros ? ->.
  - unfold Client.get_release_stats, mbind, M_bind. by rewrite Hget.
  - unfold Client.get_wantlist. by rewrite Hget.
  - unfold Client.get_release, mbind, M_bind. by rewrite Hget.
  - unfold Client.get_listing, mbind, M_bind. by rewrite Hget.
  - unfold Client.get_list, mbind, M_bind. by rewrite Hget.
Qed.

(** C4. On a read answered with status 200, [get_release_stats] returns
    [False] when the decoded body is not a mapping, and, when it is a
    mapping that fits the [ReleaseStats] class, the instance that holds
    every entry of the mapping. *)
Theorem get_release_stats_mapping_or_false w w' id body v :
  _request "GET" (Client._base_url +:+ "/marketplace/stats/" +:+ pretty id) None None w
    = (w', Ok (body, 200)) →
  json_loads body = Ok v →
  (isinstance_dict v = false → Client.get_release_stats id w = (w', Ok VFalse)) ∧
  (∀ d, v = VDict d → conforms ReleaseStats d →
        ∃ o, Client.get_release_stats id w = (w', Ok o) ∧ populated ReleaseStats d o).
Proof.
  intros Hreq Hjson. apply _get_200 in Hreq. rewrite Hjson in Hreq.
  unfold Client.get_release_stats, mbind, M_bind. rewrite Hreq. split.
  - by intros ->.
  - intros d -> Hfits. destruct (new_conforms _ _ Hfits) as (o & Hnew & Hpop).
    exists o. split; [|done]. simpl. unfold lift. simpl. by rewrite Hnew.
Qed.

(** C5, as the code has it. On a read answered with status 200 and a list
    object that fits the [UserList] class and whose items are [N] mappings,
    each fitting the [Release] class, [get_list] returns a [UserList]: the
    instance populated from the list object with its items replaced. The
    items are [N] instances of [Release], the one at each position built
    from the mapping at that position. *)
Theorem get_list_preserves_order w w' id body d (ms : list (gmap string value)) :
  _request "GET" (Client._base_url +:+ "/lists/" +:+ pretty id) None None w
    = (w', Ok (body, 200)) →
  json_loads body = Ok (VDict d) →
  d !! "items" = Some (VList (VDict <$> ms)) →
  Forall (conforms Release) ms →
  conforms UserList d →
  ∃ u rs, Client.get_list id w = (w', Ok u) ∧
          populated UserList (<["items" := VList rs]> d) u ∧
          getattr u "items" = Ok (VList rs) ∧
          length rs = length ms ∧
          ∀ i m, ms !! i = Some m →
                 ∃ r, rs !! i = Some r ∧ new Release m = Ok r ∧ populated Release m r.
Proof.
  intros Hreq Hjson Hitems Hms Hfits. apply _get_200 in Hreq. rewrite Hjson in Hreq.
  destruct (new_all_conform _ _ Hms) as [rs Hrs].
  assert (comprehension (fun item => kwargs item ≫= new Release) (VDict <$> ms) = Ok rs)
    as Hcomp.
  { apply comprehension_Forall2, Forall2_fmap_l.
    eapply Forall2_impl; [exact Hrs|]. by intros m r Hr. }
  assert (conforms UserList (<["items" := VList rs]> d)) as Hfits'.
  { destruct Hfits as [Hkeys Hreq']. split.
    - intros k Hk. apply Hkeys. destruct (decide (k = "items")) as [->|Hne].
      + by rewrite Hitems.
      + by rewrite lookup_insert_ne in Hk.
    - intros f Hf. destruct (decide (f = "items")) as [->|Hne].
      + by rewrite lookup_insert_eq.
      + rewrite lookup_insert_ne by done. by apply Hreq'. }
  destruct (new_conforms _ _ Hfits') as (u & Hu & Hpop).
  exists u, rs. split; [|split; [exact Hpop|split; [|split]]].
  - unfold Client.get_list, mbind, M_bind. rewrite Hreq. unfold lift. simpl.
    rewrite Hitems. simpl. unfold mbind in Hcomp. rewrite Hcomp. by rewrite Hu.
  - eapply populated_getattr; [exact Hpop|]. by rewrite lookup_insert_eq.
  - symmetry. by eapply Forall2_length.
  - intros i m Hi. destruct (Forall2_lookup_l _ _ _ _ _ Hrs Hi) as (r & Hr & Hnew).
    exists r. split; [done|]. split; [done|]. by apply new_populated.
Qed.

(** C6, as the code has it. On a read answered with status 200 and a
    mapping that fits the [Release] class, [get_release] returns the
    instance built from that mapping: its [id] is the [id] of the response
    body. The requested ID goes into the URL and nowhere else. *)
Theorem get_release_id_from_body w w' id body d :
  _request "GET" (Client._base_url +:+ "/releases/" +:+ pretty id) None None w
    = (w', Ok (body, 200)) →
  json_loads body = Ok (VDict d) →
  conforms Release d →
  ∃ o, Client.get_release id w = (w', Ok o) ∧
       populated Release d o ∧
       ∀ v, d !! "id" = Some v → getattr o "id" = Ok v.
Proof.
  intros Hreq Hjson Hfits. apply _get_200 in Hreq. rewrite Hjson in Hreq.
  destruct (new_conforms _ _ Hfits) as (o & Hnew & Hpop).
  exists o. split; [|split; [done|]].
  - unfold Client.get_release, mbind, M_bind. rewrite Hreq. unfold lift. simpl.
    by rewrite Hnew.
  - intros v Hv. by eapply populated_getattr.
Qed.

(** C9. A read answered with status 200 and a body that [json.loads]
    rejects makes [_get], and with it each of the five accessors, raise the
    decoding error. *)
Theorem invalid_json_propagates w w' url body :
  _request "GET" url None None w = (w', Ok (body, 200)) →
  json_loads body = Raise JSONDecodeError →
  Client._get url true w = (w', Raise JSONDecodeError) ∧
  (∀ id, url = Client._base_url +:+ "/releases/" +:+ pretty id →
         Client.get_release id w = (w', Raise JSONDecodeError)) ∧
  (∀ id, url = Client._base_url +:+ "/marketplace/listings/" +:+ pretty id →
         Client.get_listing id w = (w', Raise JSONDecodeError)) ∧
  (∀ id, url = Client._base_url +:+ "/lists/" +:+ pretty id →
         Client.get_list id w = (w', Raise JSONDecodeError)) ∧
  (∀ id, url = Client._base_url +:+ "/marketplace/stats/" +:+ pretty id →
         Client.get_release_stats id w = (w', Raise JSONDecodeError)) ∧
  (∀ name, url = Client._base_url +:+ "/users/" +:+ name +:+ "/wants" →
           Client.get_wantlist name w = (w', Raise JSONDecodeError)).
Proof.
  intros Hreq Hjson. apply _get_200 in Hreq. rewrite Hjson in Hreq.
  split; [done|].
  repeat split; intros ? ->.
  - unfold Client.get_release, mbind, M_bind. by rewrite Hreq.
  - unfold Client.get_listing, mbind, M_bind. by rewrite Hreq.
  - unfold Client.get_list, mbind, M_bind. by rewrite Hreq.
  - unfold Client.get_release_stats, mbind, M_bind. by rewrite Hreq.
  - unfold Client.get_wantlist. by rewrite Hreq.
Qed.

End accessors.

(** ** Claims about the token transport and the tracker *)

Section token_claims.
Context `{Env}.

Implicit Types (w : World UserTokenClient.t) (method url : string)
  (data : option value) (hdrs : option (gmap string string)).

(** C2. When the response to an authenticated request lacks one of the
    three rate-limit headers, [_request] raises, and a [_get] built on that
    request raises the same exception: nothing catches it. *)
Theorem missing_header_propagates w method url data hdrs resp :
  requests_request (sent w)
    {| req_method := method; req_url := url;
       req_params := {[ "token" := UserTokenClient.user_token (self w) ]};
       req_data := data; req_headers := hdrs |} = Ok resp →
  CaseInsensitiveDict.get (Response.headers resp) "X-Discogs-Ratelimit" = None ∨
  CaseInsensitiveDict.get (Response.headers resp) "X-Discogs-Ratelimit-Used" = None ∨
  CaseInsensitiveDict.get (Response.headers resp) "X-Discogs-Ratelimit-Remaining" = None →
  ∃ e, (UserTokenClient._request method url data hdrs w).2 = Raise e ∧
       (method = "GET" → data = None → hdrs = None →
        ∀ is_api, (UserTokenClient._get url is_api w).2 = Raise e).
Proof.
  intros Hresp Hmissing.
  destruct (token_request_missing _ _ _ _ _ _ Hresp Hmissing) as [e He].
  exists e. split; [done|]. intros -> -> -> is_api.
  unfold UserTokenClient._get. rewrite _get_unfold. unfold _request.
  destruct (UserTokenClient._request "GET" url None None w) as [w' r].
  simpl in He. by subst r.
Qed.

(** C3. After an authenticated call whose response carries the three
    headers, the tracker holds the three integers of the headers. Nothing
    but [_request] writes the tracker: after [_get] or a typed accessor the
    client is as its one call of [_request] left it, for every transport,
    and scraping the marketplace leaves the base fields alone. *)
Theorem tracker_follows_requests w method url data hdrs resp s1 s2 s3 n1 n2 n3 :
  requests_request (sent w)
    {| req_method := method; req_url := url;
       req_params := {[ "token" := UserTokenClient.user_token (self w) ]};
       req_data := data; req_headers := hdrs |} = Ok resp →
  CaseInsensitiveDict.get (Response.headers resp) "X-Discogs-Ratelimit" = Some s1 →
  CaseInsensitiveDict.get (Response.headers resp) "X-Discogs-Ratelimit-Used" = Some s2 →
  CaseInsensitiveDict.get (Response.headers resp) "X-Discogs-Ratelimit-Remaining" = Some s3 →
  int_of_str s1 = Ok n1 → int_of_str s2 = Ok n2 → int_of_str s3 = Ok n3 →
  (let c := UserTokenClient.base (self (UserTokenClient._request method url data hdrs w).1) in
   Client.rate_limit c = Some n1 ∧
   Client.rate_limit_used c = Some n2 ∧
   Client.rate_limit_remaining c = Some n3) ∧
  (∀ (Self : Type) (T : Transport Self) (w0 : World Self) (id : Z) (name url0 : string)
     (is_api : bool),
     self (Client._get url0 is_api w0).1 = self (_request "GET" url0 None None w0).1 ∧
     self (Client.get_release id w0).1
       = self (_request "GET" (Client._base_url +:+ "/releases/" +:+ pretty id)
                        None None w0).1 ∧
     self (Client.get_listing id w0).1
       = self (_request "GET" (Client._base_url +:+ "/marketplace/listings/" +:+ pretty id)
                        None None w0).1 ∧
     self (Client.get_list id w0).1
       = self (_request "GET" (Client._base_url +:+ "/lists/" +:+ pretty id)
                        None None w0).1 ∧
     self (Client.get_release_stats id w0).1
       = self (_request "GET" (Client._base_url +:+ "/marketplace/stats/" +:+ pretty id)
                        None None w0).1 ∧
     self (Client.get_wantlist name w0).1
       = self (_request "GET" (Client._base_url +:+ "/users/" +:+ name +:+ "/wants")
                        None None w0).1) ∧
  (∀ (wa : World AnonClient.t) (id : Z),
     AnonClient.base (self (AnonClient.get_marketplace_listings id wa).1)
     = AnonClient.base (self wa)).
Proof.
  intros Hresp Hh1 Hh2 Hh3 Hn1 Hn2 Hn3. split; [|split].
  - by rewrite (token_request_ok _ _ _ _ _ _ _ _ _ _ _ _ Hresp Hh1 Hh2 Hh3 Hn1 Hn2 Hn3).
  - intros Self T w0 id name url0 is_api.
    destruct (accessors_world w0 id name) as (-> & -> & -> & -> & ->).
    repeat split; apply _get_frame.
  - intros wa id.
    unfold AnonClient.get_marketplace_listings, AnonClient.driver_get, mbind, M_bind.
    by destruct (webdriver_get _ _).
Qed.

(** C8. Whatever the method, the URL, the data and the headers, the request
    that [_request] hands to [requests] has the one query parameter [token],
    set to the client's user token; so has the request behind every [_get]. *)
Theorem token_on_every_request w method url data hdrs :
  (∃ req, sent (UserTokenClient._request method url data hdrs w).1 = req :: sent w ∧
          req_method req = method ∧ req_url req = url ∧
          req_data req = data ∧ req_headers req = hdrs ∧
          req_params req = {[ "token" := UserTokenClient.user_token (self w) ]} ∧
          req_params req !! "token" = Some (UserTokenClient.user_token (self w))) ∧
  (∀ is_api,
     ∃ req, sent (UserTokenClient._get url is_api w).1 = req :: sent w ∧
            req_method req = "GET" ∧ req_url req = url ∧
            req_params req !! "token" = Some (UserTokenClient.user_token (self w))).
Proof.
  split.
  - eexists. split; [apply token_request_sent|]. simpl.
    repeat split.
  - intros is_api. eexists. split.
    + unfold UserTokenClient._get.
      destruct (_get_frame url is_api w) as [_ ->]. apply token_request_sent.
    + simpl. repeat split.
Qed.

(** C10, as the code has it. A client that was just constructed has no
    quota recorded. A request whose response carries the three headers, each
    an integer, returns the body and the status and leaves the three
    integers in the tracker, whatever the status is: the status is not
    looked at before the tracker is written. *)
Theorem tracker_unset_then_overwritten w method url data hdrs resp s1 s2 s3 n1 n2 n3 :
  requests_request (sent w)
    {| req_method := method; req_url := url;
       req_params := {[ "token" := UserTokenClient.user_token (self w) ]};
       req_data := data; req_headers := hdrs |} = Ok resp →
  CaseInsensitiveDict.get (Response.headers resp) "X-Discogs-Ratelimit" = Some s1 →
  CaseInsensitiveDict.get (Response.headers resp) "X-Discogs-Ratelimit-Used" = Some s2 →
  CaseInsensitiveDict.get (Response.headers resp) "X-Discogs-Ratelimit-Remaining" = Some s3 →
  int_of_str s1 = Ok n1 → int_of_str s2 = Ok n2 → int_of_str s3 = Ok n3 →
  (∀ (user_agent user_token : string) (session : Driver) (c : Client.t),
     c = Client.__init__ user_agent ∨
     c = UserTokenClient.base (UserTokenClient.__init__ user_agent user_token) ∨
     c = AnonClient.base (AnonClient.__init__ user_agent session) →
     Client.rate_limit c = None ∧
     Client.rate_limit_used c = None ∧
     Client.rate_limit_remaining c = None) ∧
  (UserTokenClient._request method url data hdrs w).2
    = Ok (Response.content resp, Response.status_code resp) ∧
  (let c := UserTokenClient.base (self (UserTokenClient._request method url data hdrs w).1) in
   Client.rate_limit c = Some n1 ∧
   Client.rate_limit_used c = Some n2 ∧
   Client.rate_limit_remaining c = Some n3).
Proof.
  intros Hresp Hh1 Hh2 Hh3 Hn1 Hn2 Hn3. split; [|split].
  - by intros ua tok session c [-> | [-> | ->]].
  - by rewrite (token_request_ok _ _ _ _ _ _ _ _ _ _ _ _ Hresp Hh1 Hh2 Hh3 Hn1 Hn2 Hn3).
  - by rewrite (token_request_ok _ _ _ _ _ _ _ _ _ _ _ _ Hresp Hh1 Hh2 Hh3 Hn1 Hn2 Hn3).
Qed.

End token_claims.

(** ** The scraping client *)

Section scraping.
Context `{Env}.

(** C7, as the code has it. [get_marketplace_listings] sends the browser to
    the marketplace page of the release, with the comma of the sort key
    percent-encoded, and returns what the parser makes of the rendered page
    and the release ID. *)
Theorem get_marketplace_listings_renders_then_parses
    (w : World AnonClient.t) (release_id : Z) (html : string) :
  webdriver_get (visited (AnonClient.driver (self w)))
    ("https://www.discogs.com/sell/release/" +:+ pretty release_id
       +:+ "?ev=rb&sort=price%2Casc") = Ok html →
  AnonClient.get_marketplace_listings release_id w =
  ({| self :=
        {| AnonClient.base := AnonClient.base (self w);
           AnonClient.driver :=
             {| visited := ("https://www.discogs.com/sell/release/" +:+ pretty release_id
                              +:+ "?ev=rb&sort=price%2Casc")
                           :: visited (AnonClient.driver (self w));
                page_source := html |} |};
      sent := sent w; logged := logged w |},
   scrape_listings_from_marketplace html release_id).
Proof.
  intros Hweb.
  unfold AnonClient.get_marketplace_listings, AnonClient.driver_get, mbind, M_bind,
    get_self, lift.
  change (Client._base_url_non_api +:+ "/sell/release/" +:+ pretty release_id
            +:+ "?ev=rb&sort=price%2Casc")
    with ("https://www.discogs.com/sell/release/" +:+ pretty release_id
            +:+ "?ev=rb&sort=price%2Casc").
  by rewrite Hweb.
Qed.

End scraping.

(** ** The claims on concrete clients *)

(** A token client asks for release 1 and is answered 404: [_get] logs and
    returns [False], and [get_release] raises [TypeError] on it. *)
Lemma non200_sentinel_and_type_errors_witness :
  404 ≠ 200 ∧
  (UserTokenClient.get_release (H := Reference.env_not_found) 1 Reference.token_world).2
    = Raise TypeError ∧
  (UserTokenClient._get (H := Reference.env_not_found)
     "https://api.discogs.com/releases/1" true Reference.token_world).2 = Ok VFalse.
Proof.
  split; [lia|].
  destruct (@non200_sentinel_and_type_errors Reference.env_not_found
              UserTokenClient.t (@UserTokenClient._request Reference.env_not_found)
              Reference.token_world
              (UserTokenClient._request (H := Reference.env_not_found) "GET"
                 "https://api.discogs.com/releases/1" None None Reference.token_world).1
              "https://api.discogs.com/releases/1" (encode "not found") 404)
    as (Hget & _ & _ & Hrelease & _).
  - by_eval.
  - lia.
  - split.
    + unfold UserTokenClient.get_release. rewrite (Hrelease 1); reflexivity.
    + unfold UserTokenClient._get. rewrite (Hget true). reflexivity.
Defined.

(** A response without [X-Discogs-Ratelimit-Remaining] makes the request
    raise. *)
Lemma missing_header_propagates_witness :
  ∃ e, (UserTokenClient._request (H := Reference.env_no_remaining) "GET"
          "https://api.discogs.com/releases/1" None None Reference.token_world).2
       = Raise e.
Proof.
  destruct (@missing_header_propagates Reference.env_no_remaining Reference.token_world
              "GET" "https://api.discogs.com/releases/1" None None
              {| Response.headers :=
                   CaseInsensitiveDict.of_list
                     [("X-Discogs-Ratelimit", "60"); ("X-Discogs-Ratelimit-Used", "3")];
                 Response.content := encode "{}";
                 Response.status_code := 200 |})
    as (e & He & _).
  - reflexivity.
  - right. right. by_eval.
  - by exists e.
Defined.

(** One call answered with the quota 60/3/57 leaves exactly these numbers in
    the tracker. *)
Lemma tracker_follows_requests_witness :
  let c := UserTokenClient.base
             (self (UserTokenClient._request (H := Reference.env_not_found) "GET"
                      "https://api.discogs.com/releases/1" None None
                      Reference.token_world).1) in
  Client.rate_limit c = Some 60 ∧
  Client.rate_limit_used c = Some 3 ∧
  Client.rate_limit_remaining c = Some 57.
Proof.
  refine (proj1 (@tracker_follows_requests Reference.env_not_found Reference.token_world
                   "GET" "https://api.discogs.com/releases/1" None None
                   {| Response.headers := CaseInsensitiveDict.of_list Reference.quota;
                      Response.content := encode "not found";
                      Response.status_code := 404 |}
                   "60" "3" "57" 60 3 57 _ _ _ _ _ _ _)); by_eval.
Defined.

(** C10, as stated, fails: not every request overwrites the three fields.
    On a client that was just constructed, a request answered without
    [X-Discogs-Ratelimit-Remaining] goes out and leaves that field unset,
    with the other two written; a request that [requests] fails goes out
    and leaves all three unset. *)
Lemma tracker_not_overwritten_by_every_request :
  (let out := UserTokenClient._request (H := Reference.env_no_remaining) "GET"
                "https://api.discogs.com/releases/1" None None Reference.token_world in
   sent out.1 = [token_request Reference.token_world "GET"
                   "https://api.discogs.com/releases/1" None None] ∧
   Client.rate_limit (UserTokenClient.base (self out.1)) = Some 60 ∧
   Client.rate_limit_used (UserTokenClient.base (self out.1)) = Some 3 ∧
   Client.rate_limit_remaining (UserTokenClient.base (self out.1)) = None) ∧
  (let out := UserTokenClient._request (H := Reference.env_down) "GET"
                "https://api.discogs.com/releases/1" None None Reference.token_world in
   sent out.1 = [token_request Reference.token_world "GET"
                   "https://api.discogs.com/releases/1" None None] ∧
   Client.rate_limit (UserTokenClient.base (self out.1)) = None ∧
   Client.rate_limit_used (UserTokenClient.base (self out.1)) = None ∧
   Client.rate_limit_remaining (UserTokenClient.base (self out.1)) = None).
Proof.
  split; repeat split; by_eval.
Qed.

(** A call answered with the three headers on a client that was just
    constructed: the status is 404 and the tracker is written all the
    same. *)
Lemma tracker_unset_then_overwritten_witness :
  Client.rate_limit (UserTokenClient.base (self Reference.token_world)) = None ∧
  (UserTokenClient._request (H := Reference.env_not_found) "GET"
     "https://api.discogs.com/releases/1" None None Reference.token_world).2
    = Ok (encode "not found", 404) ∧
  Client.rate_limit_remaining
    (UserTokenClient.base
       (self (UserTokenClient._request (H := Reference.env_not_found) "GET"
                "https://api.discogs.com/releases/1" None None
                Reference.token_world).1)) = Some 57.
Proof.
  destruct (@tracker_unset_then_overwritten Reference.env_not_found Reference.token_world
              "GET" "https://api.discogs.com/releases/1" None None
              {| Response.headers := CaseInsensitiveDict.of_list Reference.quota;
                 Response.content := encode "not found";
                 Response.status_code := 404 |}
              "60" "3" "57" 60 3 57)
    as (Hfresh & Hret & _ & _ & Hremaining);
    [by_eval | by_eval | by_eval | by_eval | by_eval | by_eval | by_eval |].
  split; [|split].
  - apply (Hfresh "agent" "secret" {| visited := []; page_source := EmptyString |}).
    right. left. reflexivity.
  - exact Hret.
  - exact Hremaining.
Defined.

(** The stats of release 1 come back as an empty list: the stats are
    [False]. They come back as an object: the stats are the entity. *)
Lemma get_release_stats_mapping_or_false_witness :
  (UserTokenClient.get_release_stats (H := Reference.env_json "[]") 1
     Reference.token_world).2 = Ok VFalse ∧
  ∃ o, (UserTokenClient.get_release_stats (H := Reference.env_json "{'num_for_sale': 4}") 1
          Reference.token_world).2 = Ok o ∧
       getattr o "num_for_sale" = Ok (VInt 4).
Proof.
  split.
  - destruct (@get_release_stats_mapping_or_false (Reference.env_json "[]")
                UserTokenClient.t (@UserTokenClient._request (Reference.env_json "[]"))
                Reference.token_world
                (UserTokenClient._request (H := Reference.env_json "[]") "GET"
                   "https://api.discogs.com/marketplace/stats/1" None None
                   Reference.token_world).1
                1 (encode "[]") (VList [])) as [Hfalse _]; [by_eval | by_eval |].
    unfold UserTokenClient.get_release_stats. rewrite Hfalse; reflexivity.
  - destruct (@get_release_stats_mapping_or_false
                (Reference.env_json "{'num_for_sale': 4}")
                UserTokenClient.t
                (@UserTokenClient._request (Reference.env_json "{'num_for_sale': 4}"))
                Reference.token_world
                (UserTokenClient._request (H := Reference.env_json "{'num_for_sale': 4}")
                   "GET" "https://api.discogs.com/marketplace/stats/1" None None
                   Reference.token_world).1
                1 (encode (Reference.dq "{'num_for_sale': 4}"))
                (VDict {[ "num_for_sale" := VInt 4 ]})) as [_ Hentity]; [by_eval | by_eval |].
    destruct (Hentity {[ "num_for_sale" := VInt 4 ]} eq_refl) as (o & Ho & Hpop).
    + apply (new_ok_conforms _ _
               (VObj "ReleaseStats"
                  (<[ "lowest_price" := VNone ]> {[ "num_for_sale" := VInt 4 ]}))).
      by_eval.
    + exists o. split.
      * unfold UserTokenClient.get_release_stats. rewrite Ho. reflexivity.
      * apply (populated_getattr _ _ _ _ _ Hpop). reflexivity.
Defined.

(** C5, as stated, fails: the list object is decoded, its items array holds
    one mapping, and [get_list] raises [TypeError], because the mapping has
    a key that [Release] does not take. *)
Lemma get_list_item_misfit_raises :
  ∃ w' body d ms,
    UserTokenClient._request
      (H := Reference.env_json "{'id': 7, 'name': 'wants', 'items': [{'id': 1, 'x': 0}]}")
      "GET" "https://api.discogs.com/lists/7" None None Reference.token_world
      = (w', Ok (body, 200)) ∧
    json_loads
      (Env := Reference.env_json "{'id': 7, 'name': 'wants', 'items': [{'id': 1, 'x': 0}]}")
      body = Ok (VDict d) ∧
    d !! "items" = Some (VList (VDict <$> ms)) ∧
    length ms = 1%nat ∧
    UserTokenClient.get_list
      (H := Reference.env_json "{'id': 7, 'name': 'wants', 'items': [{'id': 1, 'x': 0}]}")
      7 Reference.token_world = (w', Raise TypeError).
Proof.
  eexists _, _,
    (<[ "items" := VList [VDict (<[ "x" := VInt 0 ]> {[ "id" := VInt 1 ]})] ]>
       (<[ "name" := VStr "wants" ]> {[ "id" := VInt 7 ]})),
    [<[ "x" := VInt 0 ]> {[ "id" := VInt 1 ]}].
  split; [by_eval|]. split; [by_eval|]. split; [by_eval|]. split; [reflexivity|].
  by_eval.
Qed.

(** A list of two fitting items comes back as a [UserList] of two releases,
    the first built from the first item and the second from the second. *)
Lemma get_list_preserves_order_witness :
  ∃ u rs fields,
    (UserTokenClient.get_list (H := Reference.env_json Reference.list_text) 7
       Reference.token_world).2 = Ok u ∧
    u = VObj "UserList" fields ∧
    getattr u "items" = Ok (VList rs) ∧
    length rs = 2%nat ∧
    (∃ r, rs !! 0%nat = Some r ∧ getattr r "id" = Ok (VInt 1)) ∧
    (∃ r, rs !! 1%nat = Some r ∧ getattr r "id" = Ok (VInt 2)).
Proof.
  destruct (@get_list_preserves_order (Reference.env_json Reference.list_text)
              UserTokenClient.t
              (@UserTokenClient._request (Reference.env_json Reference.list_text))
              Reference.token_world
              (UserTokenClient._request (H := Reference.env_json Reference.list_text)
                 "GET" "https://api.discogs.com/lists/7" None None
                 Reference.token_world).1
              7 (encode (Reference.dq Reference.list_text))
              Reference.list_dict Reference.list_items)
    as (u & rs & Hu & (fields & Hcls & _) & Hitems & Hlen & Hpos);
    [by_eval | by_eval | by_eval | | |].
  - apply Forall_cons_2; [|apply Forall_cons_2; [|apply Forall_nil_2]].
    + apply (new_ok_conforms _ _
               (VObj "Release" (<[ "title" := VNone ]> {[ "id" := VInt 1 ]}))).
      by_eval.
    + apply (new_ok_conforms _ _
               (VObj "Release" (<[ "title" := VStr "Blue" ]> {[ "id" := VInt 2 ]}))).
      by_eval.
  - apply (new_ok_conforms _ _
             (VObj "UserList" Reference.list_dict)).
    by_eval.
  - exists u, rs, fields. split; [|split; [|split; [|split; [|split]]]].
    + unfold UserTokenClient.get_list. rewrite Hu. reflexivity.
    + exact Hcls.
    + exact Hitems.
    + exact Hlen.
    + destruct (Hpos 0%nat {[ "id" := VInt 1 ]} eq_refl) as (r & Hr & _ & Hpop).
      exists r. split; [exact Hr|].
      apply (populated_getattr _ _ _ _ _ Hpop). reflexivity.
    + destruct (Hpos 1%nat (<[ "title" := VStr "Blue" ]> {[ "id" := VInt 2 ]}) eq_refl)
        as (r & Hr & _ & Hpop).
      exists r. split; [exact Hr|].
      apply (populated_getattr _ _ _ _ _ Hpop). by_eval.
Defined.

(** C6, as stated, fails: release 1 is asked for, the service answers 200
    with a valid JSON object whose [id] is 2, and the entity returned has
    the [id] 2. *)
Lemma get_release_id_not_the_requested :
  ∃ w' body o,
    UserTokenClient._request (H := Reference.env_json "{'id': 2}") "GET"
      "https://api.discogs.com/releases/1" None None Reference.token_world
      = (w', Ok (body, 200)) ∧
    is_ok (json_loads (Env := Reference.env_json "{'id': 2}") body) = true ∧
    UserTokenClient.get_release (H := Reference.env_json "{'id': 2}") 1
      Reference.token_world = (w', Ok o) ∧
    getattr o "id" = Ok (VInt 2) ∧
    getattr o "id" ≠ Ok (VInt 1).
Proof.
  eexists _, _, _. split; [by_eval|]. split; [by_eval|]. split; [by_eval|].
  split; [by_eval|]. vm_compute. discriminate.
Qed.

(** The same exchange under the amended claim: the [id] of the entity is the
    [id] of the body. *)
Lemma get_release_id_from_body_witness :
  ∃ o, (UserTokenClient.get_release (H := Reference.env_json "{'id': 2}") 1
          Reference.token_world).2 = Ok o ∧
       getattr o "id" = Ok (VInt 2).
Proof.
  destruct (@get_release_id_from_body (Reference.env_json "{'id': 2}")
              UserTokenClient.t (@UserTokenClient._request (Reference.env_json "{'id': 2}"))
              Reference.token_world
              (UserTokenClient._request (H := Reference.env_json "{'id': 2}") "GET"
                 "https://api.discogs.com/releases/1" None None Reference.token_world).1
              1 (encode (Reference.dq "{'id': 2}")) {[ "id" := VInt 2 ]})
    as (o & Ho & _ & Hid); [by_eval | by_eval | |].
  - apply (new_ok_conforms _ _
             (VObj "Release" (<[ "title" := VNone ]> {[ "id" := VInt 2 ]}))).
    by_eval.
  - exists o. split.
    + unfold UserTokenClient.get_release. rewrite Ho. reflexivity.
    + apply Hid. reflexivity.
Defined.

(** C7, as stated, fails: for release 1 the browser is sent to the URL with
    [%2C], which is not the URL of the claim. *)
Lemma marketplace_url_is_percent_encoded :
  visited (AnonClient.driver
             (self (AnonClient.get_marketplace_listings (H := Reference.env_web) 1
                      Reference.anon_world).1))
    = ["https://www.discogs.com/sell/release/1?ev=rb&sort=price%2Casc"] ∧
  visited (AnonClient.driver
             (self (AnonClient.get_marketplace_listings (H := Reference.env_web) 1
                      Reference.anon_world).1))
    ≠ ["https://www.discogs.com/sell/release/1?ev=rb&sort=price,asc"].
Proof.
  split; [by_eval|]. vm_compute. discriminate.
Qed.

(** The page of release 1 is rendered and handed to the parser with the
    release ID. *)
Lemma get_marketplace_listings_renders_then_parses_witness :
  (AnonClient.get_marketplace_listings (H := Reference.env_web) 1 Reference.anon_world).2
    = Reference.scrape "<html></html>" 1.
Proof.
  rewrite (@get_marketplace_listings_renders_then_parses Reference.env_web
             Reference.anon_world 1 "<html></html>"); reflexivity.
Defined.

(** A body that is not JSON: [get_release] raises the decoding error. *)
Lemma invalid_json_propagates_witness :
  (UserTokenClient.get_release (H := Reference.env_json "oops") 1
     Reference.token_world).2 = Raise JSONDecodeError.
Proof.
  destruct (@invalid_json_propagates (Reference.env_json "oops")
              UserTokenClient.t (@UserTokenClient._request (Reference.env_json "oops"))
              Reference.token_world
              (UserTokenClient._request (H := Reference.env_json "oops") "GET"
                 "https://api.discogs.com/releases/1" None None Reference.token_world).1
              "https://api.discogs.com/releases/1" (encode "oops"))
    as (_ & Hrelease & _); [by_eval | by_eval |].
  unfold UserTokenClient.get_release. rewrite (Hrelease 1); reflexivity.
Defined.

(** * Further properties of the client *)

(** ** Failures of entity construction *)

Lemma bind_field_raises (kw : gmap string value) fd e :
  bind_field kw fd = Raise e → e = TypeError.
Proof.
  unfold bind_field. destruct (kw !! fd.1); [done|].
  destruct fd.2; [done|]. by intros [= <-].
Qed.

(** A comprehension whose calls can only raise [err] raises [err] as soon
    as one call fails. *)
Lemma comprehension_raises {A B} (f : A -> result B) (l : list A) (err : exn) :
  (∀ x e, f x = Raise e → e = err) →
  Exists (fun x => is_ok (f x) = false) l →
  comprehension f l = Raise err.
Proof.
  intros Honly. induction 1 as [x l Hx|x l Hl IH]; simpl;
    unfold mbind, result_bind.
  - destruct (f x) as [y|e] eqn:Hfx; [done|]. by rewrite (Honly x e Hfx).
  - destruct (f x) as [y|e] eqn:Hfx.
    + by rewrite IH.
    + by rewrite (Honly x e Hfx).
Qed.

Lemma bind_fields_raise (kw : gmap string value) fds e :
  comprehension (bind_field kw) fds = Raise e → e = TypeError.
Proof.
  induction fds as [|fd fds IH]; simpl; [done|].
  unfold mbind, result_bind.
  destruct (bind_field kw fd) as [p|e1] eqn:Hb.
  - destruct (comprehension (bind_field kw) fds) as [fs|e2]; [done|].
    intros [= <-]. by apply IH.
  - intros [= <-]. by apply bind_field_raises in Hb.
Qed.

Lemma new_raises (C : dataclass) (kw : gmap string value) e :
  new C kw = Raise e → e = TypeError.
Proof.
  unfold new. destruct (forallb _ _); [|by intros [= <-]].
  unfold mbind, result_bind.
  destruct (comprehension (bind_field kw) (dc_fields C)) as [fs|e'] eqn:Hc; [done|].
  intros [= <-]. by apply bind_fields_raise in Hc.
Qed.

(** A mapping that does not fit the class is refused with [TypeError]. *)
Lemma new_rejects (C : dataclass) (kw : gmap string value) :
  ¬ conforms C kw → new C kw = Raise TypeError.
Proof.
  intros Hno. destruct (new C kw) as [o|e] eqn:Hnew.
  - exfalso. apply Hno. by eapply new_ok_conforms.
  - by rewrite (new_raises _ _ _ Hnew).
Qed.

Lemma release_of_item_raises `{Env} (x : value) e :
  kwargs x ≫= new Release = Raise e → e = TypeError.
Proof.
  destruct x; simpl; try by intros [= <-].
  apply new_raises.
Qed.

(** ** The read path on unexpected answers *)

Section read_path_edges.
Context `{Env} {Self : Type} `{Transport Self}.

Implicit Types (w : World Self) (id : Z) (name url : string) (body : bytes).

(** An exception of the transport goes through [_get] and every accessor
    as it is, with the world as the transport left it. *)
Lemma transport_error_propagates w w' url e :
  _request "GET" url None None w = (w', Raise e) →
  (∀ is_api, Client._get url is_api w = (w', Raise e)) ∧
  (∀ id, url = Client._base_url +:+ "/releases/" +:+ pretty id →
         Client.get_release id w = (w', Raise e)) ∧
  (∀ id, url = Client._base_url +:+ "/marketplace/listings/" +:+ pretty id →
         Client.get_listing id w = (w', Raise e)) ∧
  (∀ id, url = Client._base_url +:+ "/lists/" +:+ pretty id →
         Client.get_list id w = (w', Raise e)) ∧
  (∀ id, url = Client._base_url +:+ "/marketplace/stats/" +:+ pretty id →
         Client.get_release_stats id w = (w', Raise e)) ∧
  (∀ name, url = Client._base_url +:+ "/users/" +:+ name +:+ "/wants" →
           Client.get_wantlist name w = (w', Raise e)).
Proof.
  intros Hreq.
  assert (∀ is_api, Client._get url is_api w = (w', Raise e)) as Hget
    by (intros; by apply _get_raise).
  split; [done|].
  repeat split; intros ? ->.
  - unfold Client.get_release, mbind, M_bind. by rewrite Hget.
  - unfold Client.get_listing, mbind, M_bind. by rewrite Hget.
  - unfold Client.get_list, mbind, M_bind. by rewrite Hget.
  - unfold Client.get_release_stats, mbind, M_bind. by rewrite Hget.
  - unfold Client.get_wantlist. by rewrite Hget.
Qed.

(** X2. On status 200, [_get] with [is_api] false returns the body as the
    bytes it came in, without decoding it: a body that is not JSON is no
    error there. [get_wantlist] returns what [json.loads] gives, be it a
    value of any shape or any exception. *)
Theorem get_raw_or_decoded w w' url body :
  _request "GET" url None None w = (w', Ok (body, 200)) →
  Client._get url false w = (w', Ok (VBytes body)) ∧
  Client._get url true w = (w', json_loads body) ∧
  (∀ name, url = Client._base_url +:+ "/users/" +:+ name +:+ "/wants" →
           Client.get_wantlist name w = (w', json_loads body)).
Proof.
  intros Hreq. split; [|split].
  - rewrite _get_unfold, Hreq.
    by rewrite bool_decide_eq_false_2 by (intros Hne; by apply Hne).
  - by apply _get_200.
  - intros name ->. unfold Client.get_wantlist. by apply _get_200.
Qed.

(** X10. On status 200, [get_list] raises [TypeError] when the decoded body
    is not a mapping, [KeyError] when the mapping has no [items], and
    [TypeError] when [items] cannot be iterated or one of its elements is
    not a mapping: no list is returned with the element left out. *)
Theorem get_list_shape_errors w w' id body v :
  _request "GET" (Client._base_url +:+ "/lists/" +:+ pretty id) None None w
    = (w', Ok (body, 200)) →
  json_loads body = Ok v →
  (isinstance_dict v = false → Client.get_list id w = (w', Raise TypeError)) ∧
  (∀ d, v = VDict d → d !! "items" = None →
        Client.get_list id w = (w', Raise KeyError)) ∧
  (∀ d raw, v = VDict d → d !! "items" = Some raw → is_ok (iter raw) = false →
            Client.get_list id w = (w', Raise TypeError)) ∧
  (∀ d items, v = VDict d → d !! "items" = Some (VList items) →
              Exists (fun x => isinstance_dict x = false) items →
              Client.get_list id w = (w', Raise TypeError)).
Proof.
  intros Hreq Hjson. apply _get_200 in Hreq. rewrite Hjson in Hreq.
  unfold Client.get_list, mbind, M_bind, lift. rewrite Hreq.
  split; [|split; [|split]].
  - by destruct v.
  - intros d -> Hitems. simpl. by rewrite Hitems.
  - intros d raw -> Hitems Hiter. simpl. rewrite Hitems.
    by destruct raw.
  - intros d items -> Hitems Hbad. simpl. rewrite Hitems. simpl.
    rewrite (comprehension_raises _ items TypeError); [done| |].
    + intros x e. apply release_of_item_raises.
    + eapply Exists_impl; [exact Hbad|]. intros x Hx. by destruct x.
Qed.

(** X11. On status 200 and a list object that fits [UserList], an empty
    [items] array gives a [UserList] without items. So do an empty object
    and an empty string in the place of the array: [get_list] iterates over
    [items] without asking whether it is a list. *)
Theorem get_list_empty_items w w' id body d raw :
  _request "GET" (Client._base_url +:+ "/lists/" +:+ pretty id) None None w
    = (w', Ok (body, 200)) →
  json_loads body = Ok (VDict d) →
  d !! "items" = Some raw →
  raw = VList [] ∨ raw = VDict ∅ ∨ raw = VStr EmptyString →
  conforms UserList d →
  ∃ u, Client.get_list id w = (w', Ok u) ∧ getattr u "items" = Ok (VList []).
Proof.
  intros Hreq Hjson Hitems Hraw Hfits. apply _get_200 in Hreq. rewrite Hjson in Hreq.
  assert (iter raw = Ok []) as Hiter.
  { destruct Hraw as [-> | [-> | ->]]; simpl; [done| |done].
    by rewrite map_to_list_empty. }
  assert (conforms UserList (<["items" := VList []]> d)) as Hfits'.
  { destruct Hfits as [Hkeys Hreq']. split.
    - intros k Hk. apply Hkeys. destruct (decide (k = "items")) as [->|Hne].
      + by rewrite Hitems.
      + by rewrite lookup_insert_ne in Hk.
    - intros f Hf. destruct (decide (f = "items")) as [->|Hne].
      + by rewrite lookup_insert_eq.
      + rewrite lookup_insert_ne by done. by apply Hreq'. }
  destruct (new_conforms _ _ Hfits') as (u & Hu & Hpop).
  exists u. split.
  - unfold Client.get_list, mbind, M_bind, lift. rewrite Hreq. simpl.
    rewrite Hitems, Hiter. simpl. by rewrite Hu.
  - eapply populated_getattr; [exact Hpop|]. by rewrite lookup_insert_eq.
Qed.

(** X12. On status 200 and a decoded body that is not a mapping (a list, a
    number, [null], ...), [get_release] and [get_listing] raise [TypeError];
    they have no guard like the one of [get_release_stats]. *)
Theorem entity_accessors_need_mapping w w' url body v :
  _request "GET" url None None w = (w', Ok (body, 200)) →
  json_loads body = Ok v →
  isinstance_dict v = false →
  (∀ id, url = Client._base_url +:+ "/releases/" +:+ pretty id →
         Client.get_release id w = (w', Raise TypeError)) ∧
  (∀ id, url = Client._base_url +:+ "/marketplace/listings/" +:+ pretty id →
         Client.get_listing id w = (w', Raise TypeError)).
Proof.
  intros Hreq Hjson Hshape. apply _get_200 in Hreq. rewrite Hjson in Hreq.
  split; intros id ->.
  - unfold Client.get_release, mbind, M_bind, lift. rewrite Hreq. by destruct v.
  - unfold Client.get_listing, mbind, M_bind, lift. rewrite Hreq. by destruct v.
Qed.

(** X13. On status 200 and a mapping that fits the [Listing] class,
    [get_listing] returns the instance that holds every entry of the
    mapping; its [id] is the one of the body. *)
Theorem get_listing_from_body w w' id body d :
  _request "GET" (Client._base_url +:+ "/marketplace/listings/" +:+ pretty id) None None w
    = (w', Ok (body, 200)) →
  json_loads body = Ok (VDict d) →
  conforms Listing d →
  ∃ o, Client.get_listing id w = (w', Ok o) ∧
       populated Listing d o ∧
       ∀ k v, d !! k = Some v → getattr o k = Ok v.
Proof.
  intros Hreq Hjson Hfits. apply _get_200 in Hreq. rewrite Hjson in Hreq.
  destruct (new_conforms _ _ Hfits) as (o & Hnew & Hpop).
  exists o. split; [|split; [done|]].
  - unfold Client.get_listing, mbind, M_bind, lift. rewrite Hreq. simpl.
    by rewrite Hnew.
  - intros k v Hk. by eapply populated_getattr.
Qed.

(** X14. On status 200 and a mapping that does not fit the entity class (a
    key that is no field, or a field without default that is absent),
    [get_release], [get_listing] and [get_release_stats] raise [TypeError]:
    the guard of [get_release_stats] asks for a mapping, not for a fitting
    one. *)
Theorem entity_accessors_refuse_misfit w w' url body d :
  _request "GET" url None None w = (w', Ok (body, 200)) →
  json_loads body = Ok (VDict d) →
  (∀ id, url = Client._base_url +:+ "/releases/" +:+ pretty id →
         ¬ conforms Release d →
         Client.get_release id w = (w', Raise TypeError)) ∧
  (∀ id, url = Client._base_url +:+ "/marketplace/listings/" +:+ pretty id →
         ¬ conforms Listing d →
         Client.get_listing id w = (w', Raise TypeError)) ∧
  (∀ id, url = Client._base_url +:+ "/marketplace/stats/" +:+ pretty id →
         ¬ conforms ReleaseStats d →
         Client.get_release_stats id w = (w', Raise TypeError)).
Proof.
  intros Hreq Hjson. apply _get_200 in Hreq. rewrite Hjson in Hreq.
  repeat split; intros id -> Hmisfit.
  - unfold Client.get_release, mbind, M_bind, lift. rewrite Hreq. simpl.
    by rewrite (new_rejects _ _ Hmisfit).
  - unfold Client.get_listing, mbind, M_bind, lift. rewrite Hreq. simpl.
    by rewrite (new_rejects _ _ Hmisfit).
  - unfold Client.get_release_stats, mbind, M_bind, lift. rewrite Hreq. simpl.
    by rewrite (new_rejects _ _ Hmisfit).
Qed.

End read_path_edges.

(** ** Clients without a transport of their own *)

Section no_transport.
Context `{Env}.

(** X1. [Client] leaves [_request] unimplemented and [AnonClient] does not
    override it: on both, [_get], the five accessors and the four write
    primitives raise [NotImplementedError], and nothing is sent, logged or
    changed. *)
Theorem accessors_need_a_transport :
  (∀ (w : World Client.t) (id : Z) (name url : string) (is_api : bool) (data : value),
     Client._get url is_api w = (w, Raise NotImplementedError) ∧
     Client.get_release id w = (w, Raise NotImplementedError) ∧
     Client.get_listing id w = (w, Raise NotImplementedError) ∧
     Client.get_list id w = (w, Raise NotImplementedError) ∧
     Client.get_release_stats id w = (w, Raise NotImplementedError) ∧
     Client.get_wantlist name w = (w, Raise NotImplementedError) ∧
     Client._delete url is_api w = (w, Raise NotImplementedError) ∧
     Client._patch url data is_api w = (w, Raise NotImplementedError) ∧
     Client._post url data is_api w = (w, Raise NotImplementedError) ∧
     Client._put url data is_api w = (w, Raise NotImplementedError)) ∧
  (∀ (w : World AnonClient.t) (id : Z) (name url : string) (is_api : bool) (data : value),
     AnonClient._get url is_api w = (w, Raise NotImplementedError) ∧
     AnonClient.get_release id w = (w, Raise NotImplementedError) ∧
     AnonClient.get_listing id w = (w, Raise NotImplementedError) ∧
     AnonClient.get_list id w = (w, Raise NotImplementedError) ∧
     AnonClient.get_release_stats id w = (w, Raise NotImplementedError) ∧
     AnonClient.get_wantlist name w = (w, Raise NotImplementedError) ∧
     Client._delete url is_api w = (w, Raise NotImplementedError) ∧
     Client._patch url data is_api w = (w, Raise NotImplementedError) ∧
     Client._post url data is_api w = (w, Raise NotImplementedError) ∧
     Client._put url data is_api w = (w, Raise NotImplementedError)).
Proof.
  split; intros w id name url is_api data.
  - assert (∀ u, _request "GET" u None None w = (w, Raise NotImplementedError))
      as Hreq by done.
    split; [by apply (transport_error_propagates w w url _ (Hreq url))|].
    split; [by eapply transport_error_propagates|].
    split; [by eapply transport_error_propagates|].
    split; [by eapply transport_error_propagates|].
    split; [by eapply transport_error_propagates|].
    split; [by eapply transport_error_propagates|].
    done.
  - assert (∀ u, _request "GET" u None None w = (w, Raise NotImplementedError))
      as Hreq by done.
    split; [by apply (transport_error_propagates w w url _ (Hreq url))|].
    split; [by eapply transport_error_propagates|].
    split; [by eapply transport_error_propagates|].
    split; [by eapply transport_error_propagates|].
    split; [by eapply transport_error_propagates|].
    split; [by eapply transport_error_propagates|].
    done.
Qed.

End no_transport.

(** ** The token client at work *)

Section token_client.
Context `{Env}.

Implicit Types (w : World UserTokenClient.t) (method url name : string) (id : Z)
  (data : option value) (hdrs : option (gmap string string)).

(** The transport writes no log record. *)
Lemma token_request_logged w method url data hdrs :
  logged (UserTokenClient._request method url data hdrs w).1 = logged w.
Proof.
  unfold UserTokenClient._request, mbind, M_bind, requests_call, get_self,
    set_self, lift. simpl.
  destruct (requests_request _ _) as [resp|e]; [|done]. simpl.
  destruct (int (CaseInsensitiveDict.get _ "X-Discogs-Ratelimit")); [|done]. simpl.
  destruct (int (CaseInsensitiveDict.get _ "X-Discogs-Ratelimit-Used")); [|done]. simpl.
  by destruct (int (CaseInsensitiveDict.get _ "X-Discogs-Ratelimit-Remaining")).
Qed.

(** The world after a call that [requests] failed. *)
Lemma token_request_down w method url data hdrs e :
  requests_request (sent w) (token_request w method url data hdrs) = Raise e →
  UserTokenClient._request method url data hdrs w
  = ({| self := self w; sent := token_request w method url data hdrs :: sent w;
        logged := logged w |}, Raise e).
Proof.
  intros Hresp.
  unfold UserTokenClient._request, mbind, M_bind, requests_call, get_self,
    set_self, lift. simpl.
  unfold token_request in Hresp. by rewrite Hresp.
Qed.

(** X3. A read of the token client writes one log record, the status and
    the body, when the answer arrives with a status other than 200, and no
    record otherwise: not on status 200, and not when the request raises. *)
Theorem token_client_log_discipline w url is_api :
  logged (UserTokenClient._get url is_api w).1 =
  match (UserTokenClient._request "GET" url None None w).2 with
  | Ok (body, status) =>
      if bool_decide (status ≠ 200) then (status, body) :: logged w else logged w
  | Raise _ => logged w
  end.
Proof.
  unfold UserTokenClient._get. rewrite _get_unfold. unfold _request.
  pose proof (token_request_logged w "GET" url None None) as Hlog.
  destruct (UserTokenClient._request "GET" url None None w) as [w' [[body status]|e]];
    simpl in *; [|done].
  destruct (bool_decide (status ≠ 200)); simpl; by rewrite Hlog.
Qed.

(** X4. Each typed accessor of the token client sends exactly one request:
    a GET without data and headers, with the token, to the endpoint of the
    resource; the ID is written in decimal and the user name as it is. *)
Theorem accessor_endpoints w id name :
  sent (UserTokenClient.get_release id w).1
    = token_request w "GET" ("https://api.discogs.com/releases/" +:+ pretty id)
        None None :: sent w ∧
  sent (UserTokenClient.get_listing id w).1
    = token_request w "GET"
        ("https://api.discogs.com/marketplace/listings/" +:+ pretty id)
        None None :: sent w ∧
  sent (UserTokenClient.get_list id w).1
    = token_request w "GET" ("https://api.discogs.com/lists/" +:+ pretty id)
        None None :: sent w ∧
  sent (UserTokenClient.get_release_stats id w).1
    = token_request w "GET" ("https://api.discogs.com/marketplace/stats/" +:+ pretty id)
        None None :: sent w ∧
  sent (UserTokenClient.get_wantlist name w).1
    = token_request w "GET" ("https://api.discogs.com/users/" +:+ name +:+ "/wants")
        None None :: sent w.
Proof.
  unfold UserTokenClient.get_release, UserTokenClient.get_listing,
    UserTokenClient.get_list, UserTokenClient.get_release_stats,
    UserTokenClient.get_wantlist.
  destruct (accessors_world w id name) as (-> & -> & -> & -> & ->).
  repeat split.
  all: match goal with
       | |- sent (Client._get ?u true ?w0).1 = _ =>
           destruct (_get_frame u true w0) as [_ ->]
       end; apply token_request_sent.
Qed.


(** X6. The tracker is written field by field. When reading a header
    fails (the header is absent, or [int] rejects it), the request raises
    that error, the fields of the headers before it are already written and
    the others keep the values they had. *)
Theorem tracker_written_field_by_field w method url data hdrs resp :
  requests_request (sent w) (token_request w method url data hdrs) = Ok resp →
  let r1 := int (CaseInsensitiveDict.get (Response.headers resp) "X-Discogs-Ratelimit") in
  let r2 := int (CaseInsensitiveDict.get (Response.headers resp)
                   "X-Discogs-Ratelimit-Used") in
  let r3 := int (CaseInsensitiveDict.get (Response.headers resp)
                   "X-Discogs-Ratelimit-Remaining") in
  let out := UserTokenClient._request method url data hdrs w in
  (∀ e, r1 = Raise e → out.2 = Raise e ∧ self out.1 = self w) ∧
  (∀ n1 e, r1 = Ok n1 → r2 = Raise e →
           out.2 = Raise e ∧
           self out.1 = UserTokenClient.set_rate_limit n1 (self w)) ∧
  (∀ n1 n2 e, r1 = Ok n1 → r2 = Ok n2 → r3 = Raise e →
              out.2 = Raise e ∧
              self out.1 = UserTokenClient.set_rate_limit_used n2
                             (UserTokenClient.set_rate_limit n1 (self w))).
Proof.
  intros Hresp r1 r2 r3 out. subst r1 r2 r3 out.
  unfold UserTokenClient._request, mbind, M_bind, requests_call, get_self,
    set_self, lift. simpl.
  unfold token_request in Hresp. rewrite Hresp. simpl.
  split; [|split].
  - by intros e ->.
  - by intros n1 e -> ->.
  - by intros n1 n2 e -> -> ->.
Qed.

(** X7. When [requests] itself raises (the service cannot be reached), the
    exception goes through [_get] and through every accessor, also through
    [get_release_stats]: no sentinel is returned. The request is recorded,
    the tracker keeps its values and nothing is logged. *)
Theorem network_error_propagates w url e :
  requests_request (sent w) (token_request w "GET" url None None) = Raise e →
  let w' := {| self := self w; sent := token_request w "GET" url None None :: sent w;
               logged := logged w |} in
  (∀ is_api, UserTokenClient._get url is_api w = (w', Raise e)) ∧
  (∀ id, url = Client._base_url +:+ "/releases/" +:+ pretty id →
         UserTokenClient.get_release id w = (w', Raise e)) ∧
  (∀ id, url = Client._base_url +:+ "/marketplace/listings/" +:+ pretty id →
         UserTokenClient.get_listing id w = (w', Raise e)) ∧
  (∀ id, url = Client._base_url +:+ "/lists/" +:+ pretty id →
         UserTokenClient.get_list id w = (w', Raise e)) ∧
  (∀ id, url = Client._base_url +:+ "/marketplace/stats/" +:+ pretty id →
         UserTokenClient.get_release_stats id w = (w', Raise e)) ∧
  (∀ name, url = Client._base_url +:+ "/users/" +:+ name +:+ "/wants" →
           UserTokenClient.get_wantlist name w = (w', Raise e)).
Proof.
  intros Hresp w'. apply token_request_down in Hresp.
  by apply (transport_error_propagates (Self := UserTokenClient.t) w w' url e).
Qed.

(** The transport writes the tracker and nothing else of the client. *)
Lemma token_request_identity w method url data hdrs :
  UserTokenClient.user_token (self (UserTokenClient._request method url data hdrs w).1)
    = UserTokenClient.user_token (self w) ∧
  Client.user_agent
    (UserTokenClient.base (self (UserTokenClient._request method url data hdrs w).1))
    = Client.user_agent (UserTokenClient.base (self w)) ∧
  Client.verbose
    (UserTokenClient.base (self (UserTokenClient._request method url data hdrs w).1))
    = Client.verbose (UserTokenClient.base (self w)).
Proof.
  unfold UserTokenClient._request, mbind, M_bind, requests_call, get_self,
    set_self, lift. simpl.
  destruct (requests_request _ _) as [resp|e]; [|done]. simpl.
  destruct (int (CaseInsensitiveDict.get _ "X-Discogs-Ratelimit")); [|done]. simpl.
  destruct (int (CaseInsensitiveDict.get _ "X-Discogs-Ratelimit-Used")); [|done]. simpl.
  by destruct (int (CaseInsensitiveDict.get _ "X-Discogs-Ratelimit-Remaining")).
Qed.

(** X8. No request changes who the client is: after [_request], whatever
    its outcome, and after [_get], the user token, the user agent and the
    verbosity are the ones from before. *)
Theorem token_request_keeps_identity w method url data hdrs :
  (let s' := self (UserTokenClient._request method url data hdrs w).1 in
   UserTokenClient.user_token s' = UserTokenClient.user_token (self w) ∧
   Client.user_agent (UserTokenClient.base s')
     = Client.user_agent (UserTokenClient.base (self w)) ∧
   Client.verbose (UserTokenClient.base s')
     = Client.verbose (UserTokenClient.base (self w))) ∧
  (∀ is_api,
     let s' := self (UserTokenClient._get url is_api w).1 in
     UserTokenClient.user_token s' = UserTokenClient.user_token (self w) ∧
     Client.user_agent (UserTokenClient.base s')
       = Client.user_agent (UserTokenClient.base (self w)) ∧
     Client.verbose (UserTokenClient.base s')
       = Client.verbose (UserTokenClient.base (self w))).
Proof.
  split; [apply token_request_identity|].
  intros is_api. unfold UserTokenClient._get.
  destruct (_get_frame url is_api w) as [-> _]. apply token_request_identity.
Qed.

(** X9. Requests are recorded in the order they are made, and a second
    request carries the token the client had before the first, whatever the
    first one did. *)
Theorem successive_requests_share_token w method1 url1 data1 hdrs1
    method2 url2 data2 hdrs2 :
  sent (UserTokenClient._request method2 url2 data2 hdrs2
          (UserTokenClient._request method1 url1 data1 hdrs1 w).1).1
  = token_request w method2 url2 data2 hdrs2
    :: token_request w method1 url1 data1 hdrs1 :: sent w.
Proof.
  rewrite token_request_sent.
  destruct (token_request_identity w method1 url1 data1 hdrs1) as [-> _].
  by rewrite token_request_sent.
Qed.

End token_client.

(** ** The scraping client on failures *)

Section scraping_failures.
Context `{Env}.

(** X15. [get_marketplace_listings] catches nothing: an exception of the
    browser is raised to the caller, and so is an exception of the parser on
    the rendered page. It sends no request through [requests] and writes no
    log record. *)
Theorem marketplace_errors_propagate (w : World AnonClient.t) (release_id : Z) :
  let url := "https://www.discogs.com/sell/release/" +:+ pretty release_id
               +:+ "?ev=rb&sort=price%2Casc" in
  let out := AnonClient.get_marketplace_listings release_id w in
  sent out.1 = sent w ∧
  logged out.1 = logged w ∧
  (∀ e, webdriver_get (visited (AnonClient.driver (self w))) url = Raise e →
        out.2 = Raise e) ∧
  (∀ html e, webdriver_get (visited (AnonClient.driver (self w))) url = Ok html →
             scrape_listings_from_marketplace html release_id = Raise e →
             out.2 = Raise e).
Proof.
  intros url out. subst url out.
  unfold AnonClient.get_marketplace_listings, AnonClient.driver_get, mbind, M_bind,
    get_self, lift.
  change (Client._base_url_non_api +:+ "/sell/release/" +:+ pretty release_id
            +:+ "?ev=rb&sort=price%2Casc")
    with ("https://www.discogs.com/sell/release/" +:+ pretty release_id
            +:+ "?ev=rb&sort=price%2Casc").
  destruct (webdriver_get _ _) as [html|e0]; simpl.
  - repeat split; [done|]. by intros html' e [= <-] ->.
  - repeat split; [|done]. by intros e [= <-].
Qed.

End scraping_failures.

(** ** The further properties on concrete clients *)

(** The body [oops] is no JSON: read raw it comes back as it is. *)
Lemma get_raw_or_decoded_witness :
  (UserTokenClient._get (H := Reference.env_json "oops")
     "https://api.discogs.com/releases/1" false Reference.token_world).2
  = Ok (VBytes (encode "oops")).
Proof.
  destruct (@get_raw_or_decoded (Reference.env_json "oops")
              UserTokenClient.t (@UserTokenClient._request (Reference.env_json "oops"))
              Reference.token_world
              (UserTokenClient._request (H := Reference.env_json "oops") "GET"
                 "https://api.discogs.com/releases/1" None None Reference.token_world).1
              "https://api.discogs.com/releases/1" (encode "oops"))
    as (Hraw & _); [by_eval|].
  unfold UserTokenClient._get. rewrite Hraw. reflexivity.
Defined.


(** The last header is absent: the request raises [TypeError] with the
    first two fields written and the third still unset. *)
Lemma tracker_written_field_by_field_witness :
  let out := UserTokenClient._request (H := Reference.env_no_remaining) "GET"
               "https://api.discogs.com/releases/1" None None Reference.token_world in
  out.2 = Raise TypeError ∧
  Client.rate_limit (UserTokenClient.base (self out.1)) = Some 60 ∧
  Client.rate_limit_used (UserTokenClient.base (self out.1)) = Some 3 ∧
  Client.rate_limit_remaining (UserTokenClient.base (self out.1)) = None.
Proof.
  destruct (@tracker_written_field_by_field Reference.env_no_remaining
              Reference.token_world "GET" "https://api.discogs.com/releases/1" None None
              {| Response.headers :=
                   CaseInsensitiveDict.of_list
                     [("X-Discogs-Ratelimit", "60"); ("X-Discogs-Ratelimit-Used", "3")];
                 Response.content := encode "{}";
                 Response.status_code := 200 |})
    as (_ & _ & Hthird); [reflexivity|].
  destruct (Hthird 60 3 TypeError) as [Hraise Hself]; [by_eval | by_eval | by_eval |].
  simpl. rewrite Hraise, Hself. repeat split.
Defined.

(** The service is down: asking for the stats of release 1 raises. *)
Lemma network_error_propagates_witness :
  (UserTokenClient.get_release_stats (H := Reference.env_down) 1
     Reference.token_world).2 = Raise RequestException.
Proof.
  destruct (@network_error_propagates Reference.env_down Reference.token_world
              "https://api.discogs.com/marketplace/stats/1" RequestException)
    as (_ & _ & _ & _ & Hstats & _); [reflexivity|].
  rewrite (Hstats 1); reflexivity.
Defined.

(** A list that comes back as an array, and one that has no items. *)
Lemma get_list_shape_errors_witness :
  (UserTokenClient.get_list (H := Reference.env_json "[]") 7
     Reference.token_world).2 = Raise TypeError ∧
  (UserTokenClient.get_list (H := Reference.env_json "{'id': 7}") 7
     Reference.token_world).2 = Raise KeyError.
Proof.
  split.
  - destruct (@get_list_shape_errors (Reference.env_json "[]")
                UserTokenClient.t (@UserTokenClient._request (Reference.env_json "[]"))
                Reference.token_world
                (UserTokenClient._request (H := Reference.env_json "[]") "GET"
                   "https://api.discogs.com/lists/7" None None Reference.token_world).1
                7 (encode "[]") (VList []))
      as (Hshape & _); [by_eval | by_eval |].
    unfold UserTokenClient.get_list. rewrite Hshape; reflexivity.
  - destruct (@get_list_shape_errors (Reference.env_json "{'id': 7}")
                UserTokenClient.t
                (@UserTokenClient._request (Reference.env_json "{'id': 7}"))
                Reference.token_world
                (UserTokenClient._request (H := Reference.env_json "{'id': 7}") "GET"
                   "https://api.discogs.com/lists/7" None None Reference.token_world).1
                7 (encode (Reference.dq "{'id': 7}")) (VDict {[ "id" := VInt 7 ]}))
      as (_ & Hkey & _); [by_eval | by_eval |].
    unfold UserTokenClient.get_list.
    rewrite (Hkey {[ "id" := VInt 7 ]}); reflexivity.
Defined.

(** A list without items comes back as a [UserList] without items. *)
Lemma get_list_empty_items_witness :
  ∃ u, (UserTokenClient.get_list
          (H := Reference.env_json "{'id': 7, 'name': 'n', 'items': []}") 7
          Reference.token_world).2 = Ok u ∧
       getattr u "items" = Ok (VList []).
Proof.
  destruct (@get_list_empty_items
              (Reference.env_json "{'id': 7, 'name': 'n', 'items': []}")
              UserTokenClient.t
              (@UserTokenClient._request
                 (Reference.env_json "{'id': 7, 'name': 'n', 'items': []}"))
              Reference.token_world
              (UserTokenClient._request
                 (H := Reference.env_json "{'id': 7, 'name': 'n', 'items': []}") "GET"
                 "https://api.discogs.com/lists/7" None None Reference.token_world).1
              7 (encode (Reference.dq "{'id': 7, 'name': 'n', 'items': []}"))
              (<[ "items" := VList [] ]>
                 (<[ "name" := VStr "n" ]> {[ "id" := VInt 7 ]}))
              (VList []))
    as (u & Hu & Hitems); [by_eval | by_eval | by_eval | by left | |].
  - apply (new_ok_conforms _ _
             (VObj "UserList"
                (<[ "items" := VList [] ]>
                   (<[ "name" := VStr "n" ]> {[ "id" := VInt 7 ]})))).
    by_eval.
  - exists u. split; [|exact Hitems].
    unfold UserTokenClient.get_list. rewrite Hu. reflexivity.
Defined.

(** Release 1 comes back as an array: [get_release] raises [TypeError]. *)
Lemma entity_accessors_need_mapping_witness :
  (UserTokenClient.get_release (H := Reference.env_json "[]") 1
     Reference.token_world).2 = Raise TypeError.
Proof.
  destruct (@entity_accessors_need_mapping (Reference.env_json "[]")
              UserTokenClient.t (@UserTokenClient._request (Reference.env_json "[]"))
              Reference.token_world
              (UserTokenClient._request (H := Reference.env_json "[]") "GET"
                 "https://api.discogs.com/releases/1" None None Reference.token_world).1
              "https://api.discogs.com/releases/1" (encode "[]") (VList []))
    as (Hrelease & _); [by_eval | by_eval | by_eval |].
  unfold UserTokenClient.get_release. rewrite (Hrelease 1); reflexivity.
Defined.

(** Listing 9 comes back with its price. *)
Lemma get_listing_from_body_witness :
  ∃ o, (UserTokenClient.get_listing (H := Reference.env_json "{'id': 9, 'price': 3}") 9
          Reference.token_world).2 = Ok o ∧
       getattr o "price" = Ok (VInt 3).
Proof.
  destruct (@get_listing_from_body (Reference.env_json "{'id': 9, 'price': 3}")
              UserTokenClient.t
              (@UserTokenClient._request (Reference.env_json "{'id': 9, 'price': 3}"))
              Reference.token_world
              (UserTokenClient._request
                 (H := Reference.env_json "{'id': 9, 'price': 3}") "GET"
                 "https://api.discogs.com/marketplace/listings/9" None None
                 Reference.token_world).1
              9 (encode (Reference.dq "{'id': 9, 'price': 3}"))
              (<[ "price" := VInt 3 ]> {[ "id" := VInt 9 ]}))
    as (o & Ho & _ & Hattr); [by_eval | by_eval | |].
  - apply (new_ok_conforms _ _
             (VObj "Listing" (<[ "price" := VInt 3 ]> {[ "id" := VInt 9 ]}))).
    by_eval.
  - exists o. split.
    + unfold UserTokenClient.get_listing. rewrite Ho. reflexivity.
    + apply Hattr. by_eval.
Defined.

(** Release 1 comes back with a key that [Release] does not have. *)
Lemma entity_accessors_refuse_misfit_witness :
  (UserTokenClient.get_release (H := Reference.env_json "{'id': 1, 'x': 0}") 1
     Reference.token_world).2 = Raise TypeError.
Proof.
  destruct (@entity_accessors_refuse_misfit (Reference.env_json "{'id': 1, 'x': 0}")
              UserTokenClient.t
              (@UserTokenClient._request (Reference.env_json "{'id': 1, 'x': 0}"))
              Reference.token_world
              (UserTokenClient._request (H := Reference.env_json "{'id': 1, 'x': 0}") "GET"
                 "https://api.discogs.com/releases/1" None None Reference.token_world).1
              "https://api.discogs.com/releases/1"
              (encode (Reference.dq "{'id': 1, 'x': 0}"))
              (<[ "x" := VInt 0 ]> {[ "id" := VInt 1 ]}))
    as (Hrelease & _); [by_eval | by_eval |].
  unfold UserTokenClient.get_release. rewrite (Hrelease 1); [reflexivity..|].
  intros Hfits. destruct (new_conforms _ _ Hfits) as (o & Ho & _).
  vm_compute in Ho. discriminate.
Defined.

(** The browser cannot load the page of release 1. *)
Lemma marketplace_errors_propagate_witness :
  (AnonClient.get_marketplace_listings (H := Reference.env_no_browser) 1
     Reference.anon_world).2 = Raise WebDriverException.
Proof.
  destruct (@marketplace_errors_propagate Reference.env_no_browser
              Reference.anon_world 1) as (_ & _ & Hbrowser & _).
  apply Hbrowser. reflexivity.
Defined.
